(** * Alloyance: the autofill + predict pipeline

    A shallow embedding of [Backend/src/autofill.py] and
    [Backend/src/predict.py].

    - A one-row [pandas.DataFrame] is an ordered list of (column, cell)
      pairs; a Python [dict] is an insertion-ordered association list with
      unique keys.
    - A cell is a string label, a finite float (a rational: every finite
      binary float is one) or null ([None] / [NaN]).
    - A raised exception is the [Err] branch of [result]; [try ... except
      Exception as e] is a match on it.
    - The trained estimators (imputer, KPI regressors) are opaque functions
      that may raise.
    - File-system access inside a call ([os.path.exists], [joblib.load]) and
      [print] are recorded in an event trace. *)

From Stdlib Require Import List String Ascii Bool ZArith QArith Qround Lia.
From Stdlib Require Import DecimalString.
Import ListNotations.

Local Open Scope string_scope.
Local Open Scope Z_scope.

(** ** Python values, exceptions, results *)

Inductive value : Type :=
| VStr (s : string)
| VNum (x : Q)
| VNull.

Inductive exn : Type :=
| RuntimeError (msg : string)
| ValueError (msg : string)
| TypeError (msg : string)
| KeyError (key : string)
| IndexError (msg : string)
| AttributeError (msg : string)
| FileNotFoundError (path : string)
| EstimatorError (msg : string).

(** [str(e)] *)
Definition str (e : exn) : string :=
  match e with
  | RuntimeError m | ValueError m | TypeError m | IndexError m
  | AttributeError m | EstimatorError m => m
  | KeyError k => "'" ++ k ++ "'"
  | FileNotFoundError p =>
      "[Errno 2] No such file or directory: '" ++ p ++ "'"
  end.

Inductive result (A : Type) : Type :=
| Ok (a : A)
| Err (e : exn).
Arguments Ok {A} a.
Arguments Err {A} e.

Definition rbind {A B} (r : result A) (k : A -> result B) : result B :=
  match r with
  | Ok a => k a
  | Err e => Err e
  end.

Declare Scope result_scope.
Delimit Scope result_scope with result.
Notation "'let?' x ':=' r 'in' k" := (rbind r (fun x => k))
  (at level 10, x name, r at level 100, k at level 200) : result_scope.
Local Open Scope result_scope.

Definition string_of_Z (z : Z) : string := NilZero.string_of_int (Z.to_int z).

(** ** One-row frames and dicts *)

Definition frame := list (string * value).
Definition dict (V : Type) := list (string * V).

Fixpoint lookup {V} (k : string) (d : dict V) : option V :=
  match d with
  | [] => None
  | (k', v) :: d' => if String.eqb k k' then Some v else lookup k d'
  end.

Definition keys {V} (d : dict V) : list string := map fst d.

(** [k in d] *)
Definition mem {V} (k : string) (d : dict V) : bool :=
  match lookup k d with Some _ => true | None => false end.

(** [d[k] = v]: overwrite in place, or append a new key at the end. *)
Fixpoint dict_set {V} (k : string) (v : V) (d : dict V) : dict V :=
  match d with
  | [] => [(k, v)]
  | (k', v') :: d' =>
      if String.eqb k k' then (k', v) :: d' else (k', v') :: dict_set k v d'
  end.

(** [{**a, **b}] *)
Definition dict_merge {V} (a b : dict V) : dict V :=
  fold_left (fun acc kv => dict_set (fst kv) (snd kv) acc) b a.

(** Assign [g k w] to every key [k] of [l], in order. *)
Definition set_all {V W} (g : string -> W -> V) (l : dict W) (p : dict V)
  : dict V :=
  fold_left (fun acc kw => dict_set (fst kw) (g (fst kw) (snd kw)) acc) l p.

(** [df[col] = df[col].map(f)] on a one-row frame; [f] may raise. *)
Fixpoint map_column (f : value -> result value) (col : string) (df : frame)
  : result frame :=
  match df with
  | [] => Ok []
  | (c, v) :: df' =>
      let? v' := (if String.eqb col c then f v else Ok v) in
      let? df'' := map_column f col df' in
      Ok ((c, v') :: df'')
  end.

(** The result of a column map, cell by cell. *)
Definition cell_mapped (f : value -> result value) (col : string)
           (a b : string * value) : Prop :=
  fst b = fst a
  /\ if String.eqb col (fst a) then f (snd a) = Ok (snd b)
     else snd b = snd a.

(** [df.reindex(columns=cols, fill_value=np.nan)] *)
Definition reindex (cols : list string) (df : frame) : frame :=
  map (fun c => (c, match lookup c df with Some v => v | None => VNull end))
      cols.

(** [df.drop(columns=cols, errors="ignore")] *)
Definition drop (cols : list string) (df : frame) : frame :=
  filter (fun cv => negb (existsb (String.eqb (fst cv)) cols)) df.

(** ** sklearn's LabelEncoder and the categorical codec *)

Record LabelEncoder : Type := { classes_ : list string }.

Fixpoint index_of (s : string) (l : list string) : option nat :=
  match l with
  | [] => None
  | x :: l' =>
      if String.eqb s x then Some O
      else match index_of s l' with
           | Some i => Some (S i)
           | None => None
           end
  end.

(** [x in le.classes_]: only a string can equal a label. *)
Definition in_classes (le : LabelEncoder) (x : value) : bool :=
  match x with
  | VStr s => existsb (String.eqb s) (classes_ le)
  | _ => false
  end.

(** [le.transform([x])[0]]: the position of the label in [classes_] (which
    sklearn keeps sorted and free of duplicates); raises [ValueError] on an
    unseen label. *)
Definition transform (le : LabelEncoder) (x : value) : result Z :=
  match x with
  | VStr s =>
      match index_of s (classes_ le) with
      | Some i => Ok (Z.of_nat i)
      | None => Err (ValueError ("y contains previously unseen labels: " ++ s))
      end
  | _ => Err (ValueError "y contains previously unseen labels")
  end.

(** [pd.notna(x)] *)
Definition pd_notna (x : value) : bool :=
  match x with VNull => false | _ => true end.

(** [Series.round()]: numpy rounds half to even. *)
Definition np_round (x : Q) : Z :=
  let f := Qfloor x in
  match Qcompare (x - inject_Z f) (1 # 2) with
  | Lt => f
  | Gt => f + 1
  | Eq => if Z.even f then f else f + 1
  end.

(** [a[i]] on a numpy array: a negative index counts from the end. *)
Definition np_getitem (a : list string) (i : Z) : result string :=
  let n := Z.of_nat (List.length a) in
  let j := if i <? 0 then i + n else i in
  if (0 <=? j) && (j <? n) then Ok (nth (Z.to_nat j) a EmptyString)
  else Err (IndexError ("index " ++ string_of_Z i ++
                        " is out of bounds for axis 0 with size " ++
                        string_of_Z n)).

Definition Unknown : string := "Unknown".

(** [Series.round().astype(int)] on one cell. The rounded value is taken
    to fit a 64-bit integer, where the cast is exact; beyond that range
    numpy's cast depends on the platform and is not modelled. *)
Definition round_astype_int (v : value) : result Z :=
  match v with
  | VNum q => Ok (np_round q)
  | VStr _ => Err (TypeError "loop of ufunc does not support argument 0 of type str which has no callable rint method")
  | VNull => Err (ValueError "Cannot convert non-finite values (NA or inf) to integer")
  end.

(** [pd.DataFrame(array, columns=cols)] for a one-row array. The row is
    taken to hold finite floats: an estimator that leaves NaN or inf in
    its output is outside the model. *)
Definition frame_of_row (row : list Q) (cols : list string) : result frame :=
  if Nat.eqb (List.length row) (List.length cols)
  then Ok (combine cols (map VNum row))
  else Err (ValueError
              ("Shape of passed values is (1, " ++
               string_of_Z (Z.of_nat (List.length row)) ++
               "), indices imply (1, " ++
               string_of_Z (Z.of_nat (List.length cols)) ++ ")")).

(** [df.iloc[0].to_dict()] *)
Definition to_dict (df : frame) : dict value := dict_merge [] df.

(** The reference dataset read at import: its columns with their dtype
    family, and its number of rows. *)
Inductive dtype : Type := ObjectDtype | NumberDtype | OtherDtype.

Record DataFrame : Type := {
  columns : list (string * dtype);
  n_rows : nat
}.

(** [df.empty]: some axis has length zero. *)
Definition empty (df : DataFrame) : bool :=
  match columns df, n_rows df with
  | [], _ => true
  | _, O => true
  | _, _ => false
  end.

Definition dtype_eqb (a b : dtype) : bool :=
  match a, b with
  | ObjectDtype, ObjectDtype | NumberDtype, NumberDtype
  | OtherDtype, OtherDtype => true
  | _, _ => false
  end.

(** [df.select_dtypes(include=[t]).columns.tolist()] *)
Definition select_dtypes (t : dtype) (df : DataFrame) : list string :=
  map fst (filter (fun c => dtype_eqb (snd c) t) (columns df)).

(** ** autofill.py *)

Module Autofill.
Section Globals.

(** The module's globals, bound once when it is imported. *)
Variable imputer : option (frame -> result (list Q)).
Variable label_encoders : dict LabelEncoder.
Variable df_training : DataFrame.

Definition categorical_cols : list string :=
  match label_encoders with
  | [] => select_dtypes ObjectDtype df_training
  | _ :: _ => keys label_encoders
  end.

Definition numeric_cols : list string :=
  if negb (empty df_training) then select_dtypes NumberDtype df_training
  else [].

(** Step 2 *)
Definition align (df_user : frame) : frame :=
  if negb (empty df_training)
  then reindex (map fst (columns df_training)) df_user
  else df_user.

(** Step 3: the lambda, as an integer code. *)
Definition encode (le : LabelEncoder) (x : value) : result Z :=
  if pd_notna x && in_classes le x then transform le x else Ok (-1).

Definition encode_cell (le : LabelEncoder) (x : value) : result value :=
  let? c := encode le x in Ok (VNum (inject_Z c)).

Fixpoint encode_loop (cols : list string) (df_user : frame) : result frame :=
  match cols with
  | [] => Ok df_user
  | col :: cols' =>
      let? df_user' :=
        (if mem col df_user then
           match lookup col label_encoders with
           | Some le => map_column (encode_cell le) col df_user
           | None => Ok df_user
           end
         else Ok df_user) in
      encode_loop cols' df_user'
  end.

(** How one cell of the frame leaves step 3 when the loop runs over
    [cols]: a column with an encoder holds an integer code, -1 unless the
    cell was a label of the vocabulary; any other column is untouched. *)
Definition step3_cell (cols : list string) (a b : string * value) : Prop :=
  fst b = fst a
  /\ match (if existsb (String.eqb (fst a)) cols
            then lookup (fst a) label_encoders else None) with
     | Some le =>
         exists c, snd b = VNum (inject_Z c) /\ -1 <= c
                   /\ (in_classes le (snd a) = false -> c = -1)
     | None => snd b = snd a
     end.

(** The frame handed to the imputer. *)
Definition encoded_frame (input_dict : dict value) : result frame :=
  encode_loop categorical_cols (align input_dict).

(** Step 4 *)
Definition impute (df_user : frame) : result frame :=
  match imputer with
  | Some imp =>
      let? imputed_array := imp df_user in
      frame_of_row imputed_array (map fst df_user)
  | None =>
      Err (RuntimeError
             "❌ No imputer found. Please train and save 'xgb_imputer.pkl'.")
  end.

(** Step 5: the lambda, on the rounded integer code. *)
Definition decode (le : LabelEncoder) (x : Z) : result string :=
  if x <? Z.of_nat (List.length (classes_ le))
  then np_getitem (classes_ le) x
  else Ok Unknown.

Definition decode_cell (le : LabelEncoder) (v : value) : result value :=
  let? x := round_astype_int v in
  let? s := decode le x in
  Ok (VStr s).

Fixpoint decode_loop (cols : list string) (df_imputed : frame)
  : result frame :=
  match cols with
  | [] => Ok df_imputed
  | col :: cols' =>
      let? df_imputed' :=
        match lookup col label_encoders with
        | Some le =>
            if mem col df_imputed
            then map_column (decode_cell le) col df_imputed
            else Err (KeyError col)
        | None => Ok df_imputed
        end in
      decode_loop cols' df_imputed'
  end.

Definition autofill_body (input_dict : dict value) : result (dict value) :=
  let? df_user := encoded_frame input_dict in
  let? df_imputed := impute df_user in
  let? df_decoded := decode_loop categorical_cols df_imputed in
  Ok (to_dict df_decoded).

Definition autofill_missing_values (input_dict : dict value)
  : result (dict value) :=
  match autofill_body input_dict with
  | Ok d => Ok d
  | Err e =>
      Err (RuntimeError ("Error during model-based autofill: " ++ str e))
  end.

End Globals.
End Autofill.

(** ** Files, artifacts and effects inside a call *)

(** What [joblib.load] can return. *)
Inductive artifact : Type :=
| ArtEncoders (d : dict LabelEncoder)
| ArtModel (predict : frame -> result Q)
| ArtImputer (transform : frame -> result (list Q)).

(** A file system: the artifact stored at each path, if any. *)
Definition FS := string -> option artifact.

Inductive io_event : Type :=
| PathExists (path : string)
| JoblibLoad (path : string)
| Print (line : string).

(** A computation that reads the file system of the moment, records its
    events in order, and returns or raises. *)
Definition io (A : Type) : Type := FS -> list io_event * result A.

Definition io_ret {A} (a : A) : io A := fun _ => ([], Ok a).

Definition io_raise {A} (e : exn) : io A := fun _ => ([], Err e).

Definition io_lift {A} (r : result A) : io A := fun _ => ([], r).

Definition io_bind {A B} (m : io A) (k : A -> io B) : io B :=
  fun fs =>
    match m fs with
    | (t1, Ok a) => let (t2, r) := k a fs in ((t1 ++ t2)%list, r)
    | (t1, Err e) => (t1, Err e)
    end.

(** [try: m except Exception as e: h e] *)
Definition io_try {A} (m : io A) (h : exn -> io A) : io A :=
  fun fs =>
    match m fs with
    | (t1, Ok a) => (t1, Ok a)
    | (t1, Err e) => let (t2, r) := h e fs in ((t1 ++ t2)%list, r)
    end.

Declare Scope io_scope.
Delimit Scope io_scope with io.
Notation "x <- m ;; k" := (io_bind m (fun x => k))
  (at level 61, m at next level, right associativity) : io_scope.
Notation "m ;;; k" := (io_bind m (fun _ => k))
  (at level 61, right associativity) : io_scope.

Definition os_path_exists (p : string) : io bool :=
  fun fs => ([PathExists p],
             Ok (match fs p with Some _ => true | None => false end)).

Definition joblib_load (p : string) : io artifact :=
  fun fs => ([JoblibLoad p],
             match fs p with
             | Some a => Ok a
             | None => Err (FileNotFoundError p)
             end).

Definition print (line : string) : io unit := fun _ => ([Print line], Ok tt).

(** The events that touch the file system. *)
Definition is_file_event (e : io_event) : bool :=
  match e with
  | PathExists _ | JoblibLoad _ => true
  | Print _ => false
  end.

Definition file_events (t : list io_event) : list io_event :=
  filter is_file_event t.

(** [os.path.join(a, b)] (POSIX). *)
Definition starts_with_slash (s : string) : bool :=
  match s with
  | String c _ => Ascii.eqb c "/"
  | EmptyString => false
  end.

Fixpoint ends_with_slash (s : string) : bool :=
  match s with
  | EmptyString => false
  | String c EmptyString => Ascii.eqb c "/"
  | String _ s' => ends_with_slash s'
  end.

Definition os_path_join (a b : string) : string :=
  if starts_with_slash b then b
  else if String.eqb a "" || ends_with_slash a then a ++ b
  else a ++ "/" ++ b.

(** ** predict.py *)

Module Predict.
Section Globals.

(** Directory above the one holding predict.py. *)
Variable BASE_DIR : string.

Definition MODEL_DIR : string := os_path_join BASE_DIR "model".

Definition MODEL_PATHS : dict string :=
  [ ("Recycled Content (%)",
      os_path_join MODEL_DIR "model_recycled_content.pkl");
    ("Resource Efficiency (%)",
      os_path_join MODEL_DIR "model_resource_efficiency.pkl");
    ("Extended Product Life (years)",
      os_path_join MODEL_DIR "model_extended_product_life.pkl");
    ("Recovery Rate (%)",
      os_path_join MODEL_DIR "model_recovery_rate.pkl");
    ("Reuse Potential (%)",
      os_path_join MODEL_DIR "model_reuse_potential.pkl") ].

(** The file system when the module is imported. *)
Variable fs0 : FS.

(** The load loop run at import. *)
Fixpoint load_models (paths : dict string) (MODELS : dict artifact)
  : dict artifact :=
  match paths with
  | [] => MODELS
  | (name, path) :: paths' =>
      load_models paths'
        (match fs0 path with
         | Some a => dict_set name a MODELS
         | None => MODELS
         end)
  end.

Definition MODELS : dict artifact := load_models MODEL_PATHS [].

Definition ENCODERS_PATH : string :=
  os_path_join MODEL_DIR "label_encoders.pkl".

Definition all_kpis : list string := keys MODEL_PATHS.

(** Step 1: the lambda, as an integer code. *)
Definition encode (le : LabelEncoder) (x : value) : result Z :=
  if in_classes le x then transform le x else Ok (-1).

Definition encode_cell (le : LabelEncoder) (x : value) : result value :=
  let? c := encode le x in Ok (VNum (inject_Z c)).

(** [label_encoders.items()] *)
Definition items (a : artifact) : result (dict LabelEncoder) :=
  match a with
  | ArtEncoders d => Ok d
  | _ => Err (AttributeError "object has no attribute 'items'")
  end.

Fixpoint encode_loop (encs : dict LabelEncoder) (df_input : frame)
  : result frame :=
  match encs with
  | [] => Ok df_input
  | (col, le) :: encs' =>
      let? df_input' :=
        (if mem col df_input
         then map_column (encode_cell le) col df_input
         else Ok df_input) in
      encode_loop encs' df_input'
  end.

Definition encode_step (df_input : frame) : io frame :=
  (found <- os_path_exists ENCODERS_PATH ;;
   if found then
     label_encoders <- joblib_load ENCODERS_PATH ;;
     encs <- io_lift (items label_encoders) ;;
     io_lift (encode_loop encs df_input)
   else io_ret df_input)%io.

(** [model.predict(X_input)], then [float(y_pred[0])]. *)
Definition call_predict (model : artifact) (X_input : frame) : result Q :=
  match model with
  | ArtModel predict => predict X_input
  | _ => Err (AttributeError "object has no attribute 'predict'")
  end.

(** What one iteration stores for a metric: the prediction, or null when
    the call raised. *)
Definition outcome (df_input : frame) (model : artifact) : value :=
  match call_predict model (drop all_kpis df_input) with
  | Ok y => VNum y
  | Err _ => VNull
  end.

(** Step 2: one iteration's try / except. *)
Definition predict_one (metric : string) (model : artifact)
           (df_input : frame) (predictions : dict value) : io (dict value) :=
  io_try
    (let X_input := drop all_kpis df_input in
     y_pred <- io_lift (call_predict model X_input) ;;
     io_ret (dict_set metric (VNum y_pred) predictions))%io
    (fun e =>
       print ("[WARN] Failed to predict " ++ metric ++ ": " ++ str e) ;;;
       io_ret (dict_set metric VNull predictions))%io.

Fixpoint predict_loop (models : dict artifact) (df_input : frame)
         (predictions : dict value) : io (dict value) :=
  match models with
  | [] => io_ret predictions
  | (metric, model) :: models' =>
      (predictions' <- predict_one metric model df_input predictions ;;
       predict_loop models' df_input predictions')%io
  end.

(** Steps 1 and 2: the [predictions] dict. *)
Definition predictions_of (autofilled_dict : dict value) : io (dict value) :=
  (df_input <- encode_step autofilled_dict ;;
   predict_loop MODELS df_input [])%io.

Definition make_prediction_body (autofilled_dict : dict value)
  : io (dict value) :=
  match MODELS with
  | [] =>
      io_raise
        (RuntimeError "No prediction models found in 'model/' directory.")
  | _ :: _ =>
      (predictions <- predictions_of autofilled_dict ;;
       io_ret (dict_merge autofilled_dict predictions))%io
  end.

Definition make_prediction (autofilled_dict : dict value)
  : io (dict value) :=
  io_try (make_prediction_body autofilled_dict)
         (fun e =>
            io_raise (RuntimeError ("Error during prediction: " ++ str e))).

(** Two records with the same fields in the same order, whose values may
    differ at KPI fields only. *)
Definition differ_only_in_kpis (d1 d2 : dict value) : Prop :=
  Forall2 (fun a b => fst a = fst b /\ (In (fst a) all_kpis \/ snd a = snd b))
          d1 d2.

(** The reading of claim C4 as it is worded: the failing KPI's entry in
    the result is absent or null. *)
Definition failing_kpi_missing_or_null : Prop :=
  forall (d : dict value) (fs : FS) (t1 : list io_event) (df_input : frame)
         (k pk : string),
    lookup k MODEL_PATHS = Some pk ->
    encode_step d fs = (t1, Ok df_input) ->
    (forall m pm, m <> k -> lookup m MODEL_PATHS = Some pm ->
       exists model y,
         fs0 pm = Some model
         /\ call_predict model (drop all_kpis df_input) = Ok y) ->
    (fs0 pk = None
     \/ exists model e,
          fs0 pk = Some model
          /\ call_predict model (drop all_kpis df_input) = Err e) ->
    exists t out,
      make_prediction d fs = (t, Ok out)
      /\ (lookup k out = None \/ lookup k out = Some VNull).

End Globals.
End Predict.

(** ** app.py: the two pipeline steps of the report endpoint *)

Module App.
Section Globals.

Variable imputer : option (frame -> result (list Q)).
Variable label_encoders : dict LabelEncoder.
Variable df_training : DataFrame.
Variable BASE_DIR : string.
Variable fs0 : FS.

(** [autofilled_dict = autofill_missing_values(...)] and then
    [prediction_dict = make_prediction(autofilled_dict)]. *)
Definition autofill_then_predict (input_dict : dict value)
  : io (dict value) :=
  (autofilled_dict <-
     io_lift (Autofill.autofill_missing_values
                imputer label_encoders df_training input_dict) ;;
   Predict.make_prediction BASE_DIR fs0 autofilled_dict)%io.

(** The reading of claim C5 as it is worded: a call touches no file, and
    its outcome does not depend on the file system of the moment. *)
Definition call_acquires_nothing : Prop :=
  forall (input_dict : dict value) (fs fs' : FS),
    file_events (fst (autofill_then_predict input_dict fs)) = []
    /\ autofill_then_predict input_dict fs
       = autofill_then_predict input_dict fs'.

End Globals.
End App.

(** ** Concrete artifacts and records used to run the model *)

Module Sample.

Definition transport_le : LabelEncoder :=
  {| classes_ := ["Rail"; "Ship"; "Truck"] |}.

Definition technology_le : LabelEncoder :=
  {| classes_ := ["Conventional"; "Emerging"] |}.

Definition label_encoders : dict LabelEncoder :=
  [ ("Technology", technology_le); ("Transport Mode", transport_le) ].

Definition df_training : DataFrame :=
  {| columns := [ ("Technology", ObjectDtype);
                  ("Transport Mode", ObjectDtype);
                  ("Transport Distance (km)", NumberDtype) ];
     n_rows := 1000 |}.

(** An imputer in the manner of sklearn's IterativeImputer: observed
    entries pass through unchanged, a missing one gets an estimate. *)
Definition imputer (df : frame) : result (list Q) :=
  Ok (map (fun cv => match snd cv with
                     | VNum q => q
                     | _ => 120 # 1
                     end) df).

(** An imputer whose estimate for the second column rounds to -4. *)
Definition imputer_low (df : frame) : result (list Q) :=
  Ok [1 # 1; -37 # 10; 300 # 1].

Definition BASE_DIR : string := "/app/Backend".

(** A training frame read from a CSV that has a header line and no data
    line: the columns are there, the rows are not. *)
Definition df_header_only : DataFrame :=
  {| columns := [ ("Technology", ObjectDtype);
                  ("Transport Mode", ObjectDtype);
                  ("Transport Distance (km)", NumberDtype) ];
     n_rows := 0 |}.

(** A record that is not aligned: out of order, with a field the schema
    does not have and without the transport mode. *)
Definition record_misaligned : dict value :=
  [ ("Transport Distance (km)", VNum (300 # 1));
    ("Supplier", VStr "Acme");
    ("Technology", VStr "Emerging") ].

(** A record whose transport mode is not a label of the vocabulary. *)
Definition record_unseen : dict value :=
  [ ("Technology", VStr "Emerging");
    ("Transport Mode", VStr "Bicycle");
    ("Transport Distance (km)", VNum (300 # 1)) ].

(** An autofilled record in which the caller already put a KPI value. *)
Definition record_with_kpi (recovery_rate : Q) : dict value :=
  [ ("Technology", VStr "Emerging");
    ("Transport Mode", VStr "Truck");
    ("Transport Distance (km)", VNum (300 # 1));
    ("Recovery Rate (%)", VNum recovery_rate) ].

(** A regressor that adds up the numeric cells it is given. *)
Definition sum_cells (X : frame) : Q :=
  fold_left (fun acc cv => match snd cv with
                           | VNum q => Qred (acc + q)
                           | _ => acc
                           end) X (0 # 1).

Definition model_sum : artifact := ArtModel (fun X => Ok (sum_cells X)).

Definition model_const (y : Q) : artifact := ArtModel (fun _ => Ok y).

Definition model_broken : artifact :=
  ArtModel (fun _ => Err (EstimatorError "feature_names mismatch")).

Definition encoders_pkl : string := "/app/Backend/model/label_encoders.pkl".

Definition recovery_pkl : string :=
  "/app/Backend/model/model_recovery_rate.pkl".

(** The four KPI artifacts other than the recovery-rate one. *)
Definition four_models : dict artifact :=
  [ ("/app/Backend/model/model_recycled_content.pkl", model_sum);
    ("/app/Backend/model/model_resource_efficiency.pkl", model_const (19 # 1));
    ("/app/Backend/model/model_extended_product_life.pkl",
      model_const (22 # 1));
    ("/app/Backend/model/model_reuse_potential.pkl", model_const (29 # 1)) ].

Definition fs_of (files : dict artifact) : FS := fun p => lookup p files.

Definition fs_empty : FS := fs_of [].

(** Every artifact but the recovery-rate model. *)
Definition fs_no_recovery : FS :=
  fs_of ((encoders_pkl, ArtEncoders label_encoders) :: four_models).

(** Every artifact, the recovery-rate model raising when called. *)
Definition fs_broken_recovery : FS :=
  fs_of ((encoders_pkl, ArtEncoders label_encoders)
           :: (recovery_pkl, model_broken) :: four_models).

(** The KPI models without the label-encoder file. *)
Definition fs_no_encoders : FS := fs_of four_models.

(** An imputer that rejects its input, and one that returns a row of the
    wrong width. *)
Definition imputer_raising (df : frame) : result (list Q) :=
  Err (EstimatorError "X has 3 features, but IterativeImputer is expecting 44 features as input.").

Definition imputer_short (df : frame) : result (list Q) :=
  Ok [1 # 1; 2 # 1].

(** The same autofilled record without any KPI field. *)
Definition record_no_kpi : dict value :=
  [ ("Technology", VStr "Emerging");
    ("Transport Mode", VStr "Truck");
    ("Transport Distance (km)", VNum (300 # 1)) ].

(** What make_prediction prints and returns on [record_with_kpi 50] when
    the recovery-rate model raises. *)
Definition trace_broken_recovery : list io_event :=
  [ PathExists encoders_pkl; JoblibLoad encoders_pkl;
    Print "[WARN] Failed to predict Recovery Rate (%): feature_names mismatch" ].

Definition out_broken_recovery : dict value :=
  [ ("Technology", VStr "Emerging");
    ("Transport Mode", VStr "Truck");
    ("Transport Distance (km)", VNum (300 # 1));
    ("Recovery Rate (%)", VNull);
    ("Recycled Content (%)", VNum (303 # 1));
    ("Resource Efficiency (%)", VNum (19 # 1));
    ("Extended Product Life (years)", VNum (22 # 1));
    ("Reuse Potential (%)", VNum (29 # 1)) ].

End Sample.

(** ** app.py: the report endpoint *)

Fixpoint contains_slash (s : string) : bool :=
  match s with
  | EmptyString => false
  | String c s' => Ascii.eqb c "/" || contains_slash s'
  end.

(** [os.path.basename(p)] (POSIX): what follows the last slash. *)
Fixpoint os_path_basename (p : string) : string :=
  match p with
  | EmptyString => EmptyString
  | String c p' => if contains_slash p then os_path_basename p' else p
  end.

Module Endpoints.

(** What the endpoint hands to the framework: the response it returned,
    or the HTTPException it raised. *)
Inductive export_outcome : Type :=
| FileResponse (path media_type filename : string)
| HTTPException (status_code : Z) (detail : string).

Section Globals.

Variable imputer : option (frame -> result (list Q)).
Variable label_encoders : dict LabelEncoder.
Variable df_training : DataFrame.
(** The directory of predict.py's artifacts, and the models found there
    at import. *)
Variable BASE_DIR : string.
Variable fs0 : FS.
(** The directory holding app.py. *)
Variable APP_BASE_DIR : string.
(** report_tech.generate_report_from_dict: builds the PDF at the given
    path and returns the path, or raises. *)
Variable generate_report_from_dict : dict value -> string -> result string.

Definition REPORTS_DIR : string := os_path_join APP_BASE_DIR "generatedpdf".

(** The body of the [try] of [export_report]; [hex] is [uuid.uuid4().hex],
    [input_dict] is [input_data.model_dump(by_alias=True)]. *)
Definition export_report_body (input_dict : dict value) (hex : string)
           (fs : FS) : result export_outcome :=
  let? autofilled_dict :=
    Autofill.autofill_missing_values
      imputer label_encoders df_training input_dict in
  let? prediction_dict :=
    snd (Predict.make_prediction BASE_DIR fs0 autofilled_dict fs) in
  let report_filename := "report_" ++ hex ++ ".pdf" in
  let report_path := os_path_join REPORTS_DIR report_filename in
  let? _ := generate_report_from_dict prediction_dict report_path in
  Ok (FileResponse report_path "application/pdf"
                   (os_path_basename report_path)).

Definition export_report (input_dict : dict value) (hex : string) (fs : FS)
  : export_outcome :=
  match export_report_body input_dict hex fs with
  | Ok response => response
  | Err e => HTTPException 500 ("Error generating report: " ++ str e)
  end.

End Globals.
End Endpoints.

(** ** Further notions used to state properties *)

Module Notions.

(** The reading of claim C8 as it is worded: whenever the training schema
    has fields, an aligned record has exactly those fields, in order. *)
Definition aligned_whenever_schema_has_fields (df_training : DataFrame)
  : Prop :=
  columns df_training <> [] ->
  forall input_dict : dict value,
    keys (Autofill.align df_training input_dict)
    = map fst (columns df_training).

(** The warnings step 2 of make_prediction prints on [df_input]: one per
    model whose call raises, in the order of the loop. *)
Definition warnings_of (BASE_DIR : string) (df_input : frame)
           (models : dict artifact) : list io_event :=
  flat_map
    (fun mm =>
       match Predict.call_predict (snd mm)
               (drop (Predict.all_kpis BASE_DIR) df_input) with
       | Ok _ => []
       | Err e =>
           [Print ("[WARN] Failed to predict " ++ fst mm ++ ": " ++ str e)]
       end)
    models.

(** Whether an artifact exists at the path of a (name, path) entry. *)
Definition artifact_exists (fs : FS) (entry : string * string) : bool :=
  match fs (snd entry) with Some _ => true | None => false end.

(** How one cell of the imputed frame leaves step 5 when the loop runs
    over [cols]: a column with an encoder holds a string, a label of the
    vocabulary or "Unknown"; any other column is untouched. *)
Definition step5_cell (label_encoders : dict LabelEncoder)
           (cols : list string) (a b : string * value) : Prop :=
  fst b = fst a
  /\ match (if existsb (String.eqb (fst a)) cols
            then lookup (fst a) label_encoders else None) with
     | Some le =>
         exists s, snd b = VStr s /\ (In s (classes_ le) \/ s = Unknown)
     | None => snd b = snd a
     end.

(** One cell through a loop that maps the columns of [cols] having an
    encoder with [f], each once. *)
Definition mapped_once (label_encoders : dict LabelEncoder)
           (f : LabelEncoder -> value -> result value)
           (cols : list string) (a b : string * value) : Prop :=
  fst b = fst a
  /\ match (if existsb (String.eqb (fst a)) cols
            then lookup (fst a) label_encoders else None) with
     | Some le => f le (snd a) = Ok (snd b)
     | None => snd b = snd a
     end.

(** An imputer that returns the observed entries as they are (what
    sklearn's IterativeImputer does) and estimates only the missing
    ones. *)
Definition keeps_observed (imp : frame -> result (list Q)) : Prop :=
  forall df row,
    imp df = Ok row ->
    Forall2 (fun cv q => forall x, snd cv = VNum x -> q = x) df row.

(** How a cell of the aligned input comes out of a returned autofill call
    when the imputer keeps the observed entries. *)
Definition survives (label_encoders : dict LabelEncoder)
           (a d : string * value) : Prop :=
  fst d = fst a
  /\ (forall le label,
        lookup (fst a) label_encoders = Some le ->
        snd a = VStr label -> In label (classes_ le) ->
        snd d = VStr label)
  /\ (forall x,
        lookup (fst a) label_encoders = None ->
        snd a = VNum x -> snd d = VNum x).

End Notions.

(** * Properties *)

(** ** Helper lemmas: lists, dicts, rounding *)

Lemma index_of_In (s : string) (l : list string) :
  In s l ->
  exists i, index_of s l = Some i /\ (i < List.length l)%nat
            /\ nth i l EmptyString = s.
Proof.
  induction l as [|x l IH]; simpl; [intros []|].
  intros H. destruct (String.eqb_spec s x) as [->|Hne].
  - exists O. repeat split; auto. lia.
  - destruct H as [H|H]; [congruence|].
    destruct (IH H) as (i & Hi & Hlt & Hn). rewrite Hi.
    exists (S i). repeat split; auto. lia.
Qed.

Lemma existsb_eqb_In (s : string) (l : list string) :
  existsb (String.eqb s) l = true <-> In s l.
Proof.
  rewrite existsb_exists. split.
  - intros (x & Hx & He). apply String.eqb_eq in He. now subst.
  - intros H. exists s. split; auto. apply String.eqb_refl.
Qed.

Lemma np_round_inject_Z (i : Z) : np_round (inject_Z i) = i.
Proof.
  unfold np_round. rewrite Qfloor_Z.
  replace (Qcompare (inject_Z i - inject_Z i) (1 # 2)) with Lt; auto.
  symmetry. unfold Qcompare, Qminus, Qplus, Qopp, inject_Z; simpl.
  apply Z.compare_lt_iff. lia.
Qed.

(** Decide the integer comparisons of a goal. *)
Ltac zbool :=
  repeat match goal with
         | |- context [?a <? ?b] => destruct (Z.ltb_spec a b); try lia
         | |- context [?a <=? ?b] => destruct (Z.leb_spec a b); try lia
         end.

(** ** The categorical codec *)

Module CodecSpec.

Lemma transform_in_vocabulary (le : LabelEncoder) (label : string) :
  In label (classes_ le) ->
  exists i, transform le (VStr label) = Ok (Z.of_nat i)
            /\ (i < List.length (classes_ le))%nat
            /\ nth i (classes_ le) EmptyString = label.
Proof.
  intros H. destruct (index_of_In _ _ H) as (i & Hi & Hlt & Hn).
  exists i. unfold transform. now rewrite Hi.
Qed.

Lemma in_classes_spec (le : LabelEncoder) (x : value) :
  in_classes le x = true <-> exists s, x = VStr s /\ In s (classes_ le).
Proof.
  destruct x as [s| |]; simpl.
  - rewrite existsb_eqb_In. split; [eauto|].
    intros (s' & E & H). now inversion E.
  - split; [discriminate|]. intros (s' & E & _). discriminate.
  - split; [discriminate|]. intros (s' & E & _). discriminate.
Qed.

(** Both encode lambdas call [transform] only on a value already found
    in [classes_], so neither can raise. *)
Lemma autofill_encode_total (le : LabelEncoder) (x : value) :
  exists c, Autofill.encode le x = Ok c /\ -1 <= c.
Proof.
  unfold Autofill.encode.
  destruct (pd_notna x); simpl; [|exists (-1); split; [auto|lia]].
  destruct (in_classes le x) eqn:E; [|exists (-1); split; [auto|lia]].
  apply in_classes_spec in E. destruct E as (s & -> & H).
  destruct (transform_in_vocabulary le s H) as (i & Hi & _).
  exists (Z.of_nat i). split; [auto|lia].
Qed.

Lemma predict_encode_total (le : LabelEncoder) (x : value) :
  exists c, Predict.encode le x = Ok c /\ -1 <= c.
Proof.
  unfold Predict.encode.
  destruct (in_classes le x) eqn:E; [|exists (-1); split; [auto|lia]].
  apply in_classes_spec in E. destruct E as (s & -> & H).
  destruct (transform_in_vocabulary le s H) as (i & Hi & _).
  exists (Z.of_nat i). split; [auto|lia].
Qed.

(** What the decode lambda does on each range of the rounded code. *)
Lemma decode_above_range (le : LabelEncoder) (x : Z) :
  Z.of_nat (List.length (classes_ le)) <= x ->
  Autofill.decode le x = Ok Unknown.
Proof.
  intros H. unfold Autofill.decode. now zbool.
Qed.

Lemma decode_in_range (le : LabelEncoder) (x : Z) :
  0 <= x < Z.of_nat (List.length (classes_ le)) ->
  Autofill.decode le x = Ok (nth (Z.to_nat x) (classes_ le) EmptyString).
Proof.
  intros H. unfold Autofill.decode, np_getitem. cbv zeta. now zbool.
Qed.

Lemma decode_negative_wraps (le : LabelEncoder) (x : Z) :
  - Z.of_nat (List.length (classes_ le)) <= x < 0 ->
  Autofill.decode le x =
  Ok (nth (Z.to_nat (x + Z.of_nat (List.length (classes_ le))))
          (classes_ le) EmptyString).
Proof.
  intros H. unfold Autofill.decode, np_getitem. cbv zeta. now zbool.
Qed.

Lemma decode_below_range (le : LabelEncoder) (x : Z) :
  x < - Z.of_nat (List.length (classes_ le)) ->
  exists msg, Autofill.decode le x = Err (IndexError msg).
Proof.
  intros H. unfold Autofill.decode, np_getitem. cbv zeta. zbool.
  simpl. eexists. reflexivity.
Qed.

(** C6. Codec round trip: for a categorical field with a loaded encoder
    and a label of its vocabulary, autofill's encode lambda returns a
    code, and decoding that code (rounded and cast to int, as step 5
    does with the float it gets back) returns the original label. *)
Theorem decode_encode_round_trip
        (label_encoders : dict LabelEncoder)
        (field : string) (le : LabelEncoder) (label : string) :
  lookup field label_encoders = Some le ->
  In label (classes_ le) ->
  exists c,
    Autofill.encode le (VStr label) = Ok c
    /\ Autofill.decode le (np_round (inject_Z c)) = Ok label
    /\ Autofill.decode_cell le (VNum (inject_Z c)) = Ok (VStr label).
Proof.
  intros _ Hin.
  destruct (transform_in_vocabulary le label Hin) as (i & Hi & Hlt & Hn).
  exists (Z.of_nat i).
  assert (He : Autofill.encode le (VStr label) = Ok (Z.of_nat i)).
  { unfold Autofill.encode. simpl.
    replace (existsb (String.eqb label) (classes_ le)) with true; auto.
    symmetry. now apply existsb_eqb_In. }
  assert (Hd : Autofill.decode le (np_round (inject_Z (Z.of_nat i)))
               = Ok label).
  { rewrite np_round_inject_Z, decode_in_range by lia.
    now rewrite Nat2Z.id, Hn. }
  repeat split; auto.
  unfold Autofill.decode_cell. simpl. now rewrite Hd.
Qed.

Lemma decode_encode_round_trip_witness :
  lookup "Transport Mode" Sample.label_encoders = Some Sample.transport_le
  /\ In "Ship" (classes_ Sample.transport_le)
  /\ exists c,
       Autofill.encode Sample.transport_le (VStr "Ship") = Ok c
       /\ Autofill.decode Sample.transport_le (np_round (inject_Z c))
          = Ok "Ship"
       /\ Autofill.decode_cell Sample.transport_le (VNum (inject_Z c))
          = Ok (VStr "Ship").
Proof.
  assert (H1 : lookup "Transport Mode" Sample.label_encoders
               = Some Sample.transport_le) by reflexivity.
  assert (H2 : In "Ship" (classes_ Sample.transport_le))
    by (simpl; auto).
  split; [exact H1|]. split; [exact H2|].
  exact (decode_encode_round_trip Sample.label_encoders
           "Transport Mode" Sample.transport_le "Ship" H1 H2).
Defined.

(** C7. Encoding never fails: both encode lambdas (autofill's and
    make_prediction's) return a code for every encoder and every cell,
    and the code is the sentinel -1 whenever the cell is not a label of
    the vocabulary, null included. *)
Theorem encode_never_fails (le : LabelEncoder) (x : value) :
  (exists c, Autofill.encode le x = Ok c)
  /\ (exists c, Predict.encode le x = Ok c)
  /\ ((forall s, x = VStr s -> ~ In s (classes_ le)) ->
      Autofill.encode le x = Ok (-1) /\ Predict.encode le x = Ok (-1)).
Proof.
  split; [|split].
  - destruct (autofill_encode_total le x) as (c & H & _); eauto.
  - destruct (predict_encode_total le x) as (c & H & _); eauto.
  - intros Hmiss.
    assert (E : in_classes le x = false).
    { destruct (in_classes le x) eqn:E; auto.
      apply in_classes_spec in E. destruct E as (s & Hx & Hs).
      destruct (Hmiss s Hx Hs). }
    unfold Autofill.encode, Predict.encode. rewrite E.
    now rewrite andb_false_r.
Qed.

Lemma encode_never_fails_witness :
  (forall s, VStr "Bicycle" = VStr s ->
             ~ In s (classes_ Sample.transport_le))
  /\ Autofill.encode Sample.transport_le (VStr "Bicycle") = Ok (-1)
  /\ Predict.encode Sample.transport_le (VStr "Bicycle") = Ok (-1).
Proof.
  assert (H : forall s, VStr "Bicycle" = VStr s ->
                        ~ In s (classes_ Sample.transport_le)).
  { intros s E. inversion E; subst. simpl.
    intros [F|[F|[F|[]]]]; discriminate. }
  split; [exact H|].
  exact (proj2 (proj2 (encode_never_fails Sample.transport_le
                         (VStr "Bicycle"))) H).
Defined.

End CodecSpec.

(** ** Frames: column-wise map, membership, reindex *)

Lemma mem_In {V} (k : string) (d : dict V) :
  mem k d = true <-> In k (keys d).
Proof.
  unfold mem, keys. induction d as [|[k' v] d IH]; simpl.
  - split; [discriminate|tauto].
  - destruct (String.eqb_spec k k') as [->|Hne].
    + split; auto.
    + rewrite IH. split; [auto|]. intros [E|H]; [congruence|auto].
Qed.

Lemma lookup_None {V} (k : string) (d : dict V) :
  lookup k d = None <-> ~ In k (keys d).
Proof.
  rewrite <- mem_In. unfold mem. destruct (lookup k d); split;
    congruence || (intros H; exfalso; now apply H) || auto.
Qed.

Lemma lookup_Some_In {V} (k : string) (d : dict V) (v : V) :
  lookup k d = Some v -> In k (keys d).
Proof.
  intros H. apply mem_In. unfold mem. now rewrite H.
Qed.

Lemma map_column_total (f : value -> result value) (col : string)
      (df : frame) :
  (forall v, exists v', f v = Ok v') ->
  exists df', map_column f col df = Ok df'.
Proof.
  intros Hf. induction df as [|[c v] df IH]; simpl; [eauto|].
  destruct IH as (df' & ->).
  destruct (String.eqb col c); [destruct (Hf v) as (v' & ->)|]; simpl; eauto.
Qed.

Lemma map_column_cells (f : value -> result value) (col : string)
      (df df' : frame) :
  map_column f col df = Ok df' -> Forall2 (cell_mapped f col) df df'.
Proof.
  revert df'. induction df as [|[c v] df IH]; simpl; intros df' H.
  - inversion H. constructor.
  - destruct (if String.eqb col c then f v else Ok v) as [v'|] eqn:E;
      simpl in H; [|discriminate].
    destruct (map_column f col df) as [df''|]; simpl in H; [|discriminate].
    inversion H; subst. constructor; [|now apply IH].
    unfold cell_mapped; simpl. split; auto.
    destruct (String.eqb col c); [auto|congruence].
Qed.

Lemma lookup_reindex (cols : list string) (df : frame) (c : string) :
  In c cols ->
  lookup c (reindex cols df) =
  Some (match lookup c df with Some v => v | None => VNull end).
Proof.
  unfold reindex. induction cols as [|x cols IH]; simpl; [tauto|].
  intros H. destruct (String.eqb_spec c x) as [->|Hne]; auto.
  destruct H as [H|H]; [congruence|auto].
Qed.

Lemma keys_reindex (cols : list string) (df : frame) :
  keys (reindex cols df) = cols.
Proof.
  unfold keys, reindex. rewrite map_map. simpl. apply map_id.
Qed.

Lemma reindex_idempotent (cols : list string) (df : frame) :
  reindex cols (reindex cols df) = reindex cols df.
Proof.
  unfold reindex at 1 3. apply map_ext_in. intros c Hc.
  now rewrite lookup_reindex.
Qed.

Lemma Forall2_compose {A B C} (R : A -> B -> Prop) (S : B -> C -> Prop)
      (T : A -> C -> Prop) (l1 : list A) (l2 : list B) (l3 : list C) :
  (forall a b c, R a b -> S b c -> T a c) ->
  Forall2 R l1 l2 -> Forall2 S l2 l3 -> Forall2 T l1 l3.
Proof.
  intros H H12. revert l3.
  induction H12 as [|a b l1 l2 Hab _ IH]; intros l3 H23;
    inversion H23; subst; constructor; eauto.
Qed.

Lemma Forall2_same {A} (R : A -> A -> Prop) (l : list A) :
  (forall a, R a a) -> Forall2 R l l.
Proof. intros H. induction l; constructor; auto. Qed.

Lemma Forall2_In_r {A B} (R : A -> B -> Prop) (l1 : list A) (l2 : list B)
      (b : B) :
  Forall2 R l1 l2 -> In b l2 -> exists a, In a l1 /\ R a b.
Proof.
  induction 1 as [|a' b' l1 l2 Hab _ IH]; simpl; [tauto|].
  intros [<-|H]; [eauto|]. destruct (IH H) as (a & Ha & Hr). eauto.
Qed.

(** ** autofill.py *)

Module AutofillSpec.
Section Globals.

Variable imputer : option (frame -> result (list Q)).
Variable label_encoders : dict LabelEncoder.
Variable df_training : DataFrame.

Local Abbreviation categorical_cols :=
  (Autofill.categorical_cols label_encoders df_training).
Local Abbreviation encode_loop := (Autofill.encode_loop label_encoders).
Local Abbreviation encoded_frame :=
  (Autofill.encoded_frame label_encoders df_training).
Local Abbreviation align := (Autofill.align df_training).
Local Abbreviation step3_cell := (Autofill.step3_cell label_encoders).

Lemma autofill_encode_cell_total (le : LabelEncoder) (x : value) :
  exists c, Autofill.encode_cell le x = Ok (VNum (inject_Z c))
            /\ -1 <= c /\ (in_classes le x = false -> c = -1).
Proof.
  unfold Autofill.encode_cell.
  destruct (CodecSpec.autofill_encode_total le x) as (c & Hc & Hge).
  exists c. rewrite Hc. repeat split; auto.
  intros E. unfold Autofill.encode in Hc.
  rewrite E, andb_false_r in Hc. congruence.
Qed.

Lemma encode_loop_cells (cols : list string) (df : frame) :
  exists df', encode_loop cols df = Ok df'
              /\ Forall2 (step3_cell cols) df df'.
Proof.
  revert df. induction cols as [|col cols IH]; intros df; simpl.
  - exists df. split; auto. apply Forall2_same. intros [k v].
    unfold Autofill.step3_cell; simpl. auto.
  - assert (Hstep : exists df1,
               (if mem col df
                then match lookup col label_encoders with
                     | Some le => map_column (Autofill.encode_cell le) col df
                     | None => Ok df
                     end
                else Ok df) = Ok df1
               /\ Forall2 (step3_cell [col]) df df1).
    { destruct (mem col df) eqn:Hm.
      - destruct (lookup col label_encoders) as [le|] eqn:Hl.
        + destruct (map_column_total (Autofill.encode_cell le) col df)
            as (df1 & H1).
          { intros v. destruct (autofill_encode_cell_total le v) as (c & -> & _).
            eauto. }
          exists df1. split; auto. apply map_column_cells in H1.
          eapply Forall2_impl; [|exact H1]. intros [k v] [k' v'] [E Hc].
          simpl in *. subst k'. unfold Autofill.step3_cell; simpl. split; auto.
          rewrite (String.eqb_sym k col), orb_false_r.
          destruct (String.eqb_spec col k) as [->|Hne]; auto.
          rewrite Hl. destruct (autofill_encode_cell_total le v) as (c & Hv & Hb).
          exists c. split; [congruence|auto].
        + exists df. split; auto. apply Forall2_same. intros [k v].
          unfold Autofill.step3_cell; simpl. split; auto. rewrite orb_false_r.
          destruct (String.eqb_spec k col) as [->|Hne]; auto.
          now rewrite Hl.
      - exists df. split; auto.
        assert (Hall : Forall (fun a => fst a <> col) df).
        { apply Forall_forall. intros [k v] Hin E. simpl in E. subst k.
          assert (mem col df = true); [|congruence].
          apply mem_In. unfold keys. now apply (in_map fst) in Hin. }
        clear Hm. induction Hall as [|[k v] l Hk _ IHl]; constructor; auto.
        unfold Autofill.step3_cell; simpl in *. split; auto. rewrite orb_false_r.
        destruct (String.eqb_spec k col); [congruence|auto]. }
    destruct Hstep as (df1 & -> & H1). simpl.
    destruct (IH df1) as (df' & -> & H2). exists df'. split; auto.
    eapply Forall2_compose; [|exact H1|exact H2].
    intros [k v] [k1 v1] [k2 v2] [E1 C1] [E2 C2]. simpl in *. subst k1 k2.
    unfold Autofill.step3_cell; simpl. split; auto.
    rewrite orb_false_r in C1.
    destruct (String.eqb k col) eqn:Ek; simpl.
    + destruct (lookup k label_encoders) as [le|] eqn:Hl.
      * destruct C1 as (c1 & -> & Hge1 & Hm1).
        destruct (existsb (String.eqb k) cols).
        -- destruct C2 as (c2 & -> & Hge2 & Hm2). exists c2.
           repeat split; auto.
        -- exists c1. subst v2. repeat split; auto.
      * subst v1. now destruct (existsb (String.eqb k) cols).
    + subst v1. exact C2.
Qed.

Lemma encoded_frame_total (input_dict : dict value) :
  exists df_user, encoded_frame input_dict = Ok df_user
                  /\ Forall2 (step3_cell categorical_cols)
                             (align input_dict) df_user.
Proof. apply encode_loop_cells. Qed.

Lemma encoder_col_is_categorical (col : string) (le : LabelEncoder) :
  lookup col label_encoders = Some le ->
  existsb (String.eqb col) categorical_cols = true.
Proof.
  intros H. apply existsb_eqb_In. unfold Autofill.categorical_cols.
  destruct label_encoders as [|p l] eqn:E; [discriminate|].
  rewrite <- E in *. eapply lookup_Some_In; eauto.
Qed.

(** C9. At the point where the imputer is invoked, every cell of a column
    that has a loaded encoder is an observed integer code (never null): a
    cell that was null or not a label of the vocabulary holds -1, and the
    columns without an encoder reach the imputer as they were aligned, so
    the only nulls left for the imputer are theirs. *)
Theorem categorical_cells_observed_at_imputation (input_dict : dict value) :
  exists df_user,
    encoded_frame input_dict = Ok df_user
    /\ Autofill.autofill_body imputer label_encoders df_training input_dict
       = (let? df_imputed := Autofill.impute imputer df_user in
          let? df_decoded :=
            Autofill.decode_loop label_encoders categorical_cols df_imputed in
          Ok (to_dict df_decoded))
    /\ (forall col le v,
           lookup col label_encoders = Some le ->
           In (col, v) df_user ->
           v <> VNull /\ exists c, v = VNum (inject_Z c) /\ -1 <= c)
    /\ Forall2
         (fun a b =>
            fst b = fst a
            /\ match lookup (fst a) label_encoders with
               | Some le =>
                   in_classes le (snd a) = false ->
                   snd b = VNum (inject_Z (-1))
               | None => snd b = snd a
               end)
         (align input_dict) df_user.
Proof.
  destruct (encoded_frame_total input_dict) as (df_user & He & Hc).
  exists df_user. split; [exact He|]. split.
  { unfold Autofill.autofill_body. now rewrite He. }
  split.
  - intros col le v Hl Hin.
    destruct (Forall2_In_r _ _ _ _ Hc Hin) as ([k x] & _ & [E C]).
    simpl in E, C. subst k.
    rewrite (encoder_col_is_categorical col le Hl), Hl in C.
    destruct C as (c & -> & Hge & _). split; [discriminate|eauto].
  - eapply Forall2_impl; [|exact Hc]. intros [k x] [k' v] [E C].
    simpl in *. split; auto.
    destruct (lookup k label_encoders) as [le|] eqn:Hl.
    + rewrite (encoder_col_is_categorical k le Hl) in C.
      destruct C as (c & -> & _ & Hm). intros Hx. now rewrite (Hm Hx).
    + now destruct (existsb (String.eqb k) categorical_cols).
Qed.

(** C8 (amended). With a training frame that has at least one column and
    at least one row ([df_training.empty] is false), step 2 gives the
    record exactly the training columns, in their order: a column of the
    schema holds the input's value, or null when the input lacks it, a
    field outside the schema is gone, and aligning the result again
    changes nothing. *)
Theorem align_to_training_schema (input_dict : dict value) :
  empty df_training = false ->
  keys (align input_dict) = map fst (columns df_training)
  /\ (forall c, In c (map fst (columns df_training)) ->
                lookup c (align input_dict) =
                Some (match lookup c input_dict with
                      | Some v => v
                      | None => VNull
                      end))
  /\ (forall c, ~ In c (map fst (columns df_training)) ->
                lookup c (align input_dict) = None)
  /\ align (align input_dict) = align input_dict.
Proof.
  intros Hne. unfold Autofill.align. rewrite Hne. simpl.
  split; [apply keys_reindex|]. split; [apply lookup_reindex|]. split.
  - intros c Hc. apply lookup_None. now rewrite keys_reindex.
  - apply reindex_idempotent.
Qed.

(** C3. With no imputer loaded ([imputer] is [None]), autofill raises on
    every input record, whatever encoders and training frame are loaded:
    the caller gets the RuntimeError that wraps the no-imputer message,
    and no record. *)
Theorem imputer_absent_always_fails (input_dict : dict value) :
  Autofill.autofill_missing_values None label_encoders df_training input_dict
  = Err (RuntimeError
           ("Error during model-based autofill: " ++
            "❌ No imputer found. Please train and save 'xgb_imputer.pkl'.")).
Proof.
  unfold Autofill.autofill_missing_values, Autofill.autofill_body.
  destruct (encoded_frame_total input_dict) as (df_user & -> & _).
  reflexivity.
Qed.

End Globals.

Lemma align_to_training_schema_witness :
  empty Sample.df_training = false
  /\ Autofill.align Sample.df_training Sample.record_misaligned
     <> Sample.record_misaligned
  /\ keys (Autofill.align Sample.df_training Sample.record_misaligned)
     = ["Technology"; "Transport Mode"; "Transport Distance (km)"]
  /\ lookup "Technology"
       (Autofill.align Sample.df_training Sample.record_misaligned)
     = Some (VStr "Emerging")
  /\ lookup "Transport Mode"
       (Autofill.align Sample.df_training Sample.record_misaligned)
     = Some VNull
  /\ lookup "Supplier"
       (Autofill.align Sample.df_training Sample.record_misaligned)
     = None
  /\ Autofill.align Sample.df_training
       (Autofill.align Sample.df_training Sample.record_misaligned)
     = Autofill.align Sample.df_training Sample.record_misaligned.
Proof.
  assert (H : empty Sample.df_training = false) by reflexivity.
  split; [exact H|]. split; [discriminate|].
  destruct (align_to_training_schema Sample.df_training
              Sample.record_misaligned H) as (Hk & Hin & Hout & Hi).
  split; [exact Hk|]. split; [|split; [|split; [|exact Hi]]].
  - apply (Hin "Technology"). simpl. auto.
  - apply (Hin "Transport Mode"). simpl. auto.
  - apply (Hout "Supplier"). simpl. intuition discriminate.
Defined.

(** C8, counterexample. A training frame with columns and no row is empty
    for pandas, so step 2 is skipped: the record keeps its own fields
    and order, and is not aligned to the schema although the schema has
    fields. *)
Lemma header_only_frame_skips_alignment :
  map fst (columns Sample.df_header_only)
  = ["Technology"; "Transport Mode"; "Transport Distance (km)"]
  /\ Autofill.align Sample.df_header_only Sample.record_misaligned
     = Sample.record_misaligned
  /\ keys (Autofill.align Sample.df_header_only Sample.record_misaligned)
     = ["Transport Distance (km)"; "Supplier"; "Technology"]
  /\ ~ Notions.aligned_whenever_schema_has_fields Sample.df_header_only.
Proof.
  split; [reflexivity|]. split; [reflexivity|]. split; [reflexivity|].
  intros H.
  assert (Hc : columns Sample.df_header_only <> []) by discriminate.
  specialize (H Hc Sample.record_misaligned). discriminate H.
Qed.

(** C1. Decoding a code whose rounded value is negative does not give
    "Unknown": the lambda of step 5 checks the upper bound only, so the
    sentinel -1 indexes the vocabulary from its end and returns the last
    label, and a code below minus the vocabulary size raises IndexError.
    An unseen label therefore comes out of autofill as a vocabulary
    label. *)
Theorem decode_negative_code_evaluated :
  np_round (-1 # 1) = -1
  /\ Autofill.decode Sample.transport_le (np_round (-1 # 1)) = Ok "Truck"
  /\ In "Truck" (classes_ Sample.transport_le)
  /\ Autofill.decode Sample.transport_le (np_round (-4 # 1))
     = Err (IndexError "index -4 is out of bounds for axis 0 with size 3")
  /\ Autofill.autofill_missing_values
       (Some Sample.imputer) Sample.label_encoders Sample.df_training
       Sample.record_unseen
     = Ok [ ("Technology", VStr "Emerging");
            ("Transport Mode", VStr "Truck");
            ("Transport Distance (km)", VNum (300 # 1)) ]
  /\ Autofill.autofill_missing_values
       (Some Sample.imputer_low) Sample.label_encoders Sample.df_training
       Sample.record_unseen
     = Err (RuntimeError
              ("Error during model-based autofill: " ++
               "index -4 is out of bounds for axis 0 with size 3")).
Proof.
  repeat split; try reflexivity. simpl. auto.
Qed.

End AutofillSpec.

(** ** Dicts: assignment and merge *)

Lemma lookup_dict_set_eq {V} (k : string) (v : V) (d : dict V) :
  lookup k (dict_set k v d) = Some v.
Proof.
  induction d as [|[k' v'] d IH]; simpl.
  - now rewrite String.eqb_refl.
  - destruct (String.eqb k k') eqn:E; simpl; rewrite E; auto.
Qed.

Lemma lookup_dict_set_neq {V} (k k' : string) (v : V) (d : dict V) :
  k <> k' -> lookup k (dict_set k' v d) = lookup k d.
Proof.
  intros Hne. induction d as [|[k1 v1] d IH]; simpl.
  - destruct (String.eqb_spec k k'); [congruence|auto].
  - destruct (String.eqb_spec k' k1) as [->|H1]; simpl.
    + destruct (String.eqb_spec k k1); [congruence|auto].
    + destruct (String.eqb_spec k k1); auto.
Qed.

Lemma keys_dict_set {V} (k : string) (v : V) (d : dict V) :
  keys (dict_set k v d) = if mem k d then keys d else (keys d ++ [k])%list.
Proof.
  unfold mem, keys. induction d as [|[k' v'] d IH]; simpl; auto.
  destruct (String.eqb k k'); simpl; auto.
  rewrite IH. now destruct (lookup k d).
Qed.

Lemma NoDup_keys_dict_set {V} (k : string) (v : V) (d : dict V) :
  NoDup (keys d) -> NoDup (keys (dict_set k v d)).
Proof.
  intros H. rewrite keys_dict_set. destruct (mem k d) eqn:E; auto.
  apply NoDup_app; auto.
  - repeat constructor. simpl. tauto.
  - intros x Hx [<-|[]]. apply mem_In in Hx. congruence.
Qed.

Lemma set_all_cons {V W} (g : string -> W -> V) (k : string) (w : W)
      (l : dict W) (p : dict V) :
  set_all g ((k, w) :: l) p = set_all g l (dict_set k (g k w) p).
Proof. reflexivity. Qed.

Lemma dict_merge_set_all {V} (a b : dict V) :
  dict_merge a b = set_all (fun _ v => v) b a.
Proof. reflexivity. Qed.

Lemma NoDup_keys_set_all {V W} (g : string -> W -> V) (l : dict W)
      (p : dict V) :
  NoDup (keys p) -> NoDup (keys (set_all g l p)).
Proof.
  revert p. induction l as [|[k w] l IH]; intros p H; auto.
  rewrite set_all_cons. apply IH. now apply NoDup_keys_dict_set.
Qed.

Lemma lookup_set_all_notin {V W} (g : string -> W -> V) (l : dict W)
      (p : dict V) (k : string) :
  ~ In k (keys l) -> lookup k (set_all g l p) = lookup k p.
Proof.
  revert p. induction l as [|[k' w] l IH]; intros p H; auto.
  rewrite set_all_cons, IH by (simpl in H; tauto).
  apply lookup_dict_set_neq. intros ->. simpl in H. tauto.
Qed.

Lemma lookup_set_all {V W} (g : string -> W -> V) (l : dict W)
      (p : dict V) (k : string) (w : W) :
  NoDup (keys l) -> lookup k l = Some w ->
  lookup k (set_all g l p) = Some (g k w).
Proof.
  revert p. induction l as [|[k' w'] l IH]; intros p Hnd Hl.
  - discriminate.
  - inversion Hnd as [|? ? Hnot Hnd']; subst. rewrite set_all_cons.
    simpl in Hl. destruct (String.eqb_spec k k') as [->|Hne].
    + inversion Hl; subst. rewrite (lookup_set_all_notin g l _ k' Hnot).
      apply lookup_dict_set_eq.
    + now apply IH.
Qed.

Lemma lookup_dict_merge {V} (a b : dict V) (k : string) :
  NoDup (keys b) ->
  lookup k (dict_merge a b) =
  match lookup k b with Some v => Some v | None => lookup k a end.
Proof.
  intros H. rewrite dict_merge_set_all.
  destruct (lookup k b) as [v|] eqn:E.
  - exact (lookup_set_all (fun _ x => x) b a k v H E).
  - apply lookup_set_all_notin. now apply lookup_None.
Qed.

(** ** predict.py *)

Module PredictSpec.
Section Globals.

Variable BASE_DIR : string.
Variable fs0 : FS.

Local Abbreviation MODEL_PATHS := (Predict.MODEL_PATHS BASE_DIR).
Local Abbreviation MODELS := (Predict.MODELS BASE_DIR fs0).
Local Abbreviation all_kpis := (Predict.all_kpis BASE_DIR).
Local Abbreviation ENCODERS_PATH := (Predict.ENCODERS_PATH BASE_DIR).
Local Abbreviation predict_loop := (Predict.predict_loop BASE_DIR).
Local Abbreviation encode_step := (Predict.encode_step BASE_DIR).
Local Abbreviation make_prediction := (Predict.make_prediction BASE_DIR fs0).
Local Abbreviation outcome := (Predict.outcome BASE_DIR).
Local Abbreviation differ_only_in_kpis :=
  (Predict.differ_only_in_kpis BASE_DIR).

Lemma all_kpis_names :
  all_kpis = [ "Recycled Content (%)"; "Resource Efficiency (%)";
               "Extended Product Life (years)"; "Recovery Rate (%)";
               "Reuse Potential (%)" ].
Proof. reflexivity. Qed.

Lemma NoDup_all_kpis : NoDup all_kpis.
Proof.
  rewrite all_kpis_names.
  repeat (constructor; [simpl; intuition discriminate|]). constructor.
Qed.

(** *** The models loaded at import *)

Lemma load_models_lookup (paths : dict string) (acc : dict artifact)
      (k : string) :
  NoDup (keys paths) ->
  lookup k (Predict.load_models fs0 paths acc) =
  match lookup k paths with
  | Some p => match fs0 p with
              | Some a => Some a
              | None => lookup k acc
              end
  | None => lookup k acc
  end.
Proof.
  revert acc. induction paths as [|[n p] paths IH]; intros acc Hnd; simpl.
  - reflexivity.
  - inversion Hnd as [|? ? Hnot Hnd']; subst. rewrite IH by assumption.
    destruct (String.eqb_spec k n) as [->|Hne].
    + replace (lookup n paths) with (@None string)
        by (symmetry; now apply lookup_None).
      destruct (fs0 p); auto. apply lookup_dict_set_eq.
    + destruct (fs0 p); auto.
      now rewrite lookup_dict_set_neq by assumption.
Qed.

Lemma NoDup_keys_load_models (paths : dict string) (acc : dict artifact) :
  NoDup (keys acc) -> NoDup (keys (Predict.load_models fs0 paths acc)).
Proof.
  revert acc. induction paths as [|[n p] paths IH]; intros acc H; simpl; auto.
  apply IH. destruct (fs0 p); auto. now apply NoDup_keys_dict_set.
Qed.

Lemma NoDup_keys_MODELS : NoDup (keys MODELS).
Proof. apply NoDup_keys_load_models. constructor. Qed.

(** A KPI has a loaded model exactly when its artifact existed at import. *)
Lemma lookup_MODELS (k : string) :
  lookup k MODELS =
  match lookup k MODEL_PATHS with Some p => fs0 p | None => None end.
Proof.
  unfold Predict.MODELS. rewrite load_models_lookup by apply NoDup_all_kpis.
  destruct (lookup k MODEL_PATHS) as [p|]; auto. now destruct (fs0 p).
Qed.

(** *** Step 1 *)

Lemma predict_encode_cell_total (le : LabelEncoder) (x : value) :
  exists c, Predict.encode_cell le x = Ok (VNum (inject_Z c)).
Proof.
  unfold Predict.encode_cell.
  destruct (CodecSpec.predict_encode_total le x) as (c & -> & _).
  now exists c.
Qed.

Lemma encode_loop_total (encs : dict LabelEncoder) (df : frame) :
  exists df', Predict.encode_loop encs df = Ok df'.
Proof.
  revert df. induction encs as [|[col le] encs IH]; intros df; simpl; eauto.
  destruct (mem col df).
  - destruct (map_column_total (Predict.encode_cell le) col df) as (df1 & ->).
    { intros v. destruct (predict_encode_cell_total le v) as (c & ->). eauto. }
    simpl. apply IH.
  - simpl. apply IH.
Qed.

Lemma encode_step_run (d : dict value) (fs : FS) :
  encode_step d fs =
  match fs ENCODERS_PATH with
  | None => ([PathExists ENCODERS_PATH], Ok d)
  | Some a =>
      ([PathExists ENCODERS_PATH; JoblibLoad ENCODERS_PATH],
       let? encs := Predict.items a in Predict.encode_loop encs d)
  end.
Proof.
  unfold Predict.encode_step, io_bind, os_path_exists, joblib_load, io_lift,
    io_ret.
  cbv beta. destruct (fs ENCODERS_PATH) as [a|] eqn:E; simpl; auto.
  rewrite E. destruct (Predict.items a) as [encs|e]; simpl; auto.
Qed.

(** *** Step 2 *)

Lemma predict_one_run (metric : string) (model : artifact) (df : frame)
      (p : dict value) (fs : FS) :
  exists t,
    Predict.predict_one BASE_DIR metric model df p fs
    = (t, Ok (dict_set metric (outcome df model) p))
    /\ file_events t = [].
Proof.
  unfold Predict.predict_one, Predict.outcome, io_try, io_bind, io_lift, io_ret,
    print.
  destruct (Predict.call_predict model (drop all_kpis df)); simpl;
    eexists; split; reflexivity.
Qed.

Lemma predict_loop_run (models : dict artifact) (df : frame)
      (p : dict value) (fs : FS) :
  exists t,
    predict_loop models df p fs
    = (t, Ok (set_all (fun _ => outcome df) models p))
    /\ file_events t = [].
Proof.
  revert p. induction models as [|[metric model] models IH]; intros p.
  - exists []. split; reflexivity.
  - destruct (predict_one_run metric model df p fs) as (t1 & H1 & F1).
    destruct (IH (dict_set metric (outcome df model) p)) as (t2 & H2 & F2).
    exists (t1 ++ t2)%list. split.
    + simpl. unfold io_bind. rewrite H1, H2. reflexivity.
    + unfold file_events in *. now rewrite filter_app, F1, F2.
Qed.

Lemma predict_loop_any_fs (models : dict artifact) (df : frame)
      (p : dict value) (fs fs' : FS) :
  predict_loop models df p fs = predict_loop models df p fs'.
Proof.
  revert p. induction models as [|[metric model] models IH]; intros p; auto.
  simpl. unfold io_bind.
  replace (Predict.predict_one BASE_DIR metric model df p fs')
    with (Predict.predict_one BASE_DIR metric model df p fs) by reflexivity.
  destruct (Predict.predict_one BASE_DIR metric model df p fs) as [t [p'|e]];
    auto.
  now rewrite (IH p').
Qed.

(** The predictors see the frame only through [drop all_kpis]. *)
Lemma predict_loop_drop (models : dict artifact) (df1 df2 : frame)
      (p : dict value) (fs : FS) :
  drop all_kpis df1 = drop all_kpis df2 ->
  predict_loop models df1 p fs = predict_loop models df2 p fs.
Proof.
  intros H. revert p.
  induction models as [|[metric model] models IH]; intros p; auto.
  simpl. unfold io_bind.
  replace (Predict.predict_one BASE_DIR metric model df2 p fs)
    with (Predict.predict_one BASE_DIR metric model df1 p fs)
    by (unfold Predict.predict_one; now rewrite H).
  destruct (Predict.predict_one BASE_DIR metric model df1 p fs) as [t [p'|e]];
    auto.
  now rewrite (IH p').
Qed.

(** *** The whole call *)

Lemma make_prediction_ok (d : dict value) (fs : FS) (t1 : list io_event)
      (df : frame) :
  MODELS <> [] ->
  encode_step d fs = (t1, Ok df) ->
  exists t2,
    make_prediction d fs
    = ((t1 ++ t2)%list,
       Ok (dict_merge d (set_all (fun _ => outcome df) MODELS [])))
    /\ file_events t2 = [].
Proof.
  intros Hne He.
  destruct (predict_loop_run MODELS df [] fs) as (t2 & H2 & F2).
  exists t2. split; auto.
  unfold Predict.make_prediction, Predict.make_prediction_body, io_try.
  destruct MODELS as [|m ms] eqn:EM; [congruence|]. rewrite <- EM in *.
  unfold Predict.predictions_of, io_bind, io_ret.
  rewrite He, H2. simpl. now rewrite app_nil_r.
Qed.

Lemma lookup_output (d : dict value) (df : frame) (k : string) :
  lookup k (dict_merge d (set_all (fun _ => outcome df) MODELS [])) =
  match lookup k MODELS with
  | Some model => Some (outcome df model)
  | None => lookup k d
  end.
Proof.
  rewrite lookup_dict_merge by (apply NoDup_keys_set_all; constructor).
  destruct (lookup k MODELS) as [model|] eqn:E.
  - now rewrite (lookup_set_all (fun _ => outcome df) MODELS [] k model
                   NoDup_keys_MODELS E).
  - rewrite lookup_set_all_notin by now apply lookup_None.
    reflexivity.
Qed.

Lemma no_models_always_spec (d : dict value) (fs : FS) :
  MODELS = [] ->
  make_prediction d fs
  = ([], Err (RuntimeError
                "Error during prediction: No prediction models found in 'model/' directory.")).
Proof.
  intros H.
  unfold Predict.make_prediction, Predict.make_prediction_body, io_try.
  rewrite H. reflexivity.
Qed.

(** C10. With no KPI model loaded at import ([MODELS] is empty),
    make_prediction raises for every input record, and touches no file:
    the caller gets the RuntimeError that wraps the no-models message,
    not the input record with the KPIs marked missing. *)
Theorem no_models_always_raises (autofilled_dict : dict value) (fs : FS) :
  MODELS = [] ->
  make_prediction autofilled_dict fs
  = ([], Err (RuntimeError
                ("Error during prediction: " ++
                 "No prediction models found in 'model/' directory."))).
Proof.
  intros H.
  unfold Predict.make_prediction, Predict.make_prediction_body, io_try.
  rewrite H. reflexivity.
Qed.

(** *** KPI columns and the predictors' features *)

Lemma differ_only_in_kpis_mem (d1 d2 : dict value) (col : string) :
  differ_only_in_kpis d1 d2 -> mem col d1 = mem col d2.
Proof.
  unfold mem. induction 1 as [|[k1 v1] [k2 v2] l1 l2 [E _] _ IH]; simpl; auto.
  simpl in E. subst k2. destruct (String.eqb col k1); auto.
Qed.

Lemma differ_only_in_kpis_map_column (f : value -> result value)
      (col : string) (d1 d2 d1' d2' : frame) :
  differ_only_in_kpis d1 d2 ->
  map_column f col d1 = Ok d1' -> map_column f col d2 = Ok d2' ->
  differ_only_in_kpis d1' d2'.
Proof.
  intros H. revert d1' d2'.
  induction H as [|[k1 v1] [k2 v2] l1 l2 [E Hv] _ IH]; simpl;
    intros d1' d2' H1 H2.
  - inversion H1; inversion H2; constructor.
  - simpl in E, Hv. subst k2.
    destruct (if String.eqb col k1 then f v1 else Ok v1) as [w1|] eqn:E1;
      simpl in H1; [|discriminate].
    destruct (if String.eqb col k1 then f v2 else Ok v2) as [w2|] eqn:E2;
      simpl in H2; [|discriminate].
    destruct (map_column f col l1) as [l1'|]; simpl in H1; [|discriminate].
    destruct (map_column f col l2) as [l2'|]; simpl in H2; [|discriminate].
    inversion H1; inversion H2; subst.
    constructor; [|now apply IH]. simpl. split; auto.
    destruct Hv as [Hk|Hv]; [now left|right]. subst v2. congruence.
Qed.

Lemma differ_only_in_kpis_encode_loop (encs : dict LabelEncoder)
      (d1 d2 d1' d2' : frame) :
  differ_only_in_kpis d1 d2 ->
  Predict.encode_loop encs d1 = Ok d1' ->
  Predict.encode_loop encs d2 = Ok d2' ->
  differ_only_in_kpis d1' d2'.
Proof.
  revert d1 d2. induction encs as [|[col le] encs IH]; simpl;
    intros d1 d2 H H1 H2.
  - congruence.
  - rewrite <- (differ_only_in_kpis_mem d1 d2 col H) in H2.
    destruct (mem col d1).
    + destruct (map_column (Predict.encode_cell le) col d1) as [e1|] eqn:E1;
        simpl in H1; [|discriminate].
      destruct (map_column (Predict.encode_cell le) col d2) as [e2|] eqn:E2;
        simpl in H2; [|discriminate].
      eapply IH; [|exact H1|exact H2].
      eapply differ_only_in_kpis_map_column; eauto.
    + simpl in H1, H2. eapply IH; eauto.
Qed.

Lemma differ_only_in_kpis_drop (d1 d2 : frame) :
  differ_only_in_kpis d1 d2 -> drop all_kpis d1 = drop all_kpis d2.
Proof.
  unfold Predict.differ_only_in_kpis, drop. generalize all_kpis. intros K.
  induction 1 as [|[k1 v1] [k2 v2] l1 l2 [E Hv] _ IH]; simpl; auto.
  simpl in E, Hv. subst k2.
  destruct (existsb (String.eqb k1) K) eqn:Ek; simpl; auto.
  destruct Hv as [Hk|Hv]; [|congruence].
  apply existsb_eqb_In in Hk. congruence.
Qed.

Lemma lookup_drop_kpi (df : frame) (k : string) :
  In k all_kpis -> lookup k (drop all_kpis df) = None.
Proof.
  generalize all_kpis. intros K Hk.
  apply lookup_None. unfold keys, drop. rewrite in_map_iff.
  intros ([k' v] & E & Hin). simpl in E. subst k'.
  apply filter_In in Hin. destruct Hin as [_ Hf]. simpl in Hf.
  apply existsb_eqb_In in Hk. rewrite Hk in Hf. discriminate.
Qed.

(** C2. Two records that differ only in the values of KPI fields give the
    same [predictions] dict, warnings included, whatever models and
    encoders are loaded: no KPI column is in the frame a predictor is
    called on, the predictor's own target included. *)
Theorem kpi_values_never_reach_predictors (d1 d2 : dict value) (fs : FS) :
  differ_only_in_kpis d1 d2 ->
  Predict.predictions_of BASE_DIR fs0 d1 fs
  = Predict.predictions_of BASE_DIR fs0 d2 fs
  /\ (forall df k, In k all_kpis -> lookup k (drop all_kpis df) = None).
Proof.
  intros H. split; [|intros df k; apply lookup_drop_kpi].
  unfold Predict.predictions_of, io_bind. rewrite !encode_step_run.
  destruct (fs ENCODERS_PATH) as [a|].
  - destruct (Predict.items a) as [encs|e]; simpl; auto.
    destruct (encode_loop_total encs d1) as (d1' & E1).
    destruct (encode_loop_total encs d2) as (d2' & E2).
    rewrite E1, E2.
    rewrite (predict_loop_drop MODELS d1' d2' [] fs); auto.
    apply differ_only_in_kpis_drop.
    eapply differ_only_in_kpis_encode_loop; eauto.
  - rewrite (predict_loop_drop MODELS d1 d2 [] fs); auto.
    now apply differ_only_in_kpis_drop.
Qed.

(** *** One predictor failing *)

Lemma MODELS_nonempty (m pm : string) (a : artifact) :
  lookup m MODEL_PATHS = Some pm -> fs0 pm = Some a -> MODELS <> [].
Proof.
  intros H1 H2 E. pose proof (lookup_MODELS m) as H.
  rewrite H1, H2, E in H. discriminate.
Qed.

(** C4 (amended). Let exactly one KPI fail while the other predictors,
    called on the frame step 1 produced, succeed. Then make_prediction
    returns a result and raises nothing; every other KPI holds its
    prediction; a KPI whose model raised holds null; a KPI whose artifact
    was absent at import gets nothing written: the result holds whatever
    the input record had under that name. *)
Theorem single_predictor_failure_is_isolated
        (d : dict value) (fs : FS) (t1 : list io_event) (df_input : frame)
        (k pk : string) :
  lookup k MODEL_PATHS = Some pk ->
  encode_step d fs = (t1, Ok df_input) ->
  (forall m pm, m <> k -> lookup m MODEL_PATHS = Some pm ->
     exists model y,
       fs0 pm = Some model
       /\ Predict.call_predict model (drop all_kpis df_input) = Ok y) ->
  (fs0 pk = None
   \/ exists model e,
        fs0 pk = Some model
        /\ Predict.call_predict model (drop all_kpis df_input) = Err e) ->
  exists t out,
    make_prediction d fs = (t, Ok out)
    /\ (forall m pm model y,
           m <> k -> lookup m MODEL_PATHS = Some pm ->
           fs0 pm = Some model ->
           Predict.call_predict model (drop all_kpis df_input) = Ok y ->
           lookup m out = Some (VNum y))
    /\ ((exists model, fs0 pk = Some model) -> lookup k out = Some VNull)
    /\ (fs0 pk = None -> lookup k out = lookup k d).
Proof.
  intros Hk He Hothers Hfail.
  assert (Hne : MODELS <> []).
  { destruct (String.eqb_spec k "Recycled Content (%)") as [->|Hn].
    - destruct (Hothers "Resource Efficiency (%)" _ ltac:(discriminate)
                  eq_refl) as (model & y & Hm & _).
      exact (MODELS_nonempty "Resource Efficiency (%)" _ model eq_refl Hm).
    - destruct (Hothers "Recycled Content (%)" _ ltac:(congruence)
                  eq_refl) as (model & y & Hm & _).
      exact (MODELS_nonempty "Recycled Content (%)" _ model eq_refl Hm). }
  destruct (make_prediction_ok d fs t1 df_input Hne He) as (t2 & Hrun & _).
  eexists. eexists. split; [exact Hrun|]. split; [|split].
  - intros m pm model y Hmk Hp Hm Hy.
    rewrite lookup_output, lookup_MODELS, Hp, Hm. unfold Predict.outcome.
    now rewrite Hy.
  - intros (model & Hm). rewrite lookup_output, lookup_MODELS, Hk, Hm.
    destruct Hfail as [Habs|(model' & e & Hm' & Hy)]; [congruence|].
    assert (model' = model) by congruence. subst model'.
    unfold Predict.outcome. now rewrite Hy.
  - intros Habs. now rewrite lookup_output, lookup_MODELS, Hk, Habs.
Qed.

(** *** File access during a call *)

Lemma make_prediction_same_encoder_file (d : dict value) (fs fs' : FS) :
  fs' ENCODERS_PATH = fs ENCODERS_PATH ->
  make_prediction d fs' = make_prediction d fs.
Proof.
  intros H.
  unfold Predict.make_prediction, Predict.make_prediction_body, io_try.
  destruct MODELS as [|m ms] eqn:EM; [reflexivity|].
  unfold Predict.predictions_of, io_bind. rewrite !encode_step_run, H.
  destruct (fs ENCODERS_PATH) as [a|].
  - destruct (Predict.items a) as [encs|e]; cbn [rbind]; auto.
    destruct (Predict.encode_loop encs d) as [df|e]; auto.
    now rewrite (predict_loop_any_fs MODELS df [] fs' fs).
  - now rewrite (predict_loop_any_fs MODELS d [] fs' fs).
Qed.

Lemma file_events_encode_step (d : dict value) (fs : FS) :
  file_events (fst (encode_step d fs)) =
  PathExists ENCODERS_PATH
    :: match fs ENCODERS_PATH with
       | Some _ => [JoblibLoad ENCODERS_PATH]
       | None => []
       end.
Proof.
  rewrite encode_step_run. now destruct (fs ENCODERS_PATH).
Qed.

Lemma file_events_make_prediction (d : dict value) (fs : FS) :
  file_events (fst (make_prediction d fs)) =
  match MODELS with
  | [] => []
  | _ :: _ =>
      PathExists ENCODERS_PATH
        :: match fs ENCODERS_PATH with
           | Some _ => [JoblibLoad ENCODERS_PATH]
           | None => []
           end
  end.
Proof.
  destruct MODELS as [|m ms] eqn:EM.
  - now rewrite no_models_always_spec.
  - rewrite <- file_events_encode_step with (d := d).
    destruct (encode_step d fs) as [t1 [df|e]] eqn:He.
    + destruct (make_prediction_ok d fs t1 df) as (t2 & Hrun & F2); auto.
      { rewrite EM. discriminate. }
      rewrite Hrun. simpl. unfold file_events in *.
      now rewrite filter_app, F2, app_nil_r.
    + unfold Predict.make_prediction, Predict.make_prediction_body, io_try.
      rewrite EM. unfold Predict.predictions_of, io_bind. rewrite He.
      simpl. now rewrite app_nil_r.
Qed.

End Globals.

(** *** Runs on the sample artifacts *)

Lemma lookup_cons_inv {V} (m k : string) (v x : V) (d : dict V) :
  lookup m ((k, v) :: d) = Some x ->
  (m = k /\ x = v) \/ (m <> k /\ lookup m d = Some x).
Proof.
  simpl. destruct (String.eqb_spec m k); [left|right]; split; congruence.
Qed.

(** On either sample file system every KPI but the recovery rate has a
    model that returns. *)
Ltac other_models_succeed :=
  let m := fresh "m" in
  let pm := fresh "pm" in
  let Hne := fresh "Hne" in
  let Hl := fresh "Hl" in
  intros m pm Hne Hl; unfold Predict.MODEL_PATHS in Hl;
  repeat (apply lookup_cons_inv in Hl;
          destruct Hl as [[-> ->]|[_ Hl]];
          [first [ congruence
                 | eexists; eexists; split; reflexivity ]|]);
  discriminate Hl.

Lemma no_models_always_raises_witness :
  Predict.MODELS Sample.BASE_DIR Sample.fs_empty = []
  /\ Predict.make_prediction Sample.BASE_DIR Sample.fs_empty
       (Sample.record_with_kpi (50 # 1)) Sample.fs_no_recovery
     = ([], Err (RuntimeError
                   ("Error during prediction: " ++
                    "No prediction models found in 'model/' directory."))).
Proof.
  assert (H : Predict.MODELS Sample.BASE_DIR Sample.fs_empty = [])
    by reflexivity.
  split; [exact H|].
  exact (no_models_always_raises Sample.BASE_DIR Sample.fs_empty
           (Sample.record_with_kpi (50 # 1)) Sample.fs_no_recovery H).
Defined.

Lemma kpi_values_never_reach_predictors_witness :
  Predict.differ_only_in_kpis Sample.BASE_DIR
    (Sample.record_with_kpi (50 # 1)) (Sample.record_with_kpi (99 # 1))
  /\ Predict.predictions_of Sample.BASE_DIR Sample.fs_no_recovery
       (Sample.record_with_kpi (50 # 1)) Sample.fs_no_recovery
     = Predict.predictions_of Sample.BASE_DIR Sample.fs_no_recovery
         (Sample.record_with_kpi (99 # 1)) Sample.fs_no_recovery.
Proof.
  assert (H : Predict.differ_only_in_kpis Sample.BASE_DIR
                (Sample.record_with_kpi (50 # 1))
                (Sample.record_with_kpi (99 # 1))).
  { unfold Predict.differ_only_in_kpis, Sample.record_with_kpi.
    repeat (apply Forall2_cons;
            [split; [reflexivity
                    |first [right; reflexivity | left; simpl; auto 10]]|]).
    apply Forall2_nil. }
  split; [exact H|].
  exact (proj1 (kpi_values_never_reach_predictors Sample.BASE_DIR
                  Sample.fs_no_recovery _ _ Sample.fs_no_recovery H)).
Defined.

Lemma single_predictor_failure_is_isolated_witness :
  exists t out,
    Predict.make_prediction Sample.BASE_DIR Sample.fs_broken_recovery
      (Sample.record_with_kpi (50 # 1)) Sample.fs_broken_recovery
    = (t, Ok out)
    /\ lookup "Recovery Rate (%)" out = Some VNull
    /\ lookup "Reuse Potential (%)" out = Some (VNum (29 # 1)).
Proof.
  destruct (single_predictor_failure_is_isolated
              Sample.BASE_DIR Sample.fs_broken_recovery
              (Sample.record_with_kpi (50 # 1)) Sample.fs_broken_recovery
              [PathExists Sample.encoders_pkl; JoblibLoad Sample.encoders_pkl]
              [ ("Technology", VNum (inject_Z 1));
                ("Transport Mode", VNum (inject_Z 2));
                ("Transport Distance (km)", VNum (300 # 1));
                ("Recovery Rate (%)", VNum (50 # 1)) ]
              "Recovery Rate (%)" Sample.recovery_pkl)
    as (t & out & Hrun & Hothers & Hnull & _).
  - reflexivity.
  - reflexivity.
  - other_models_succeed.
  - right. eexists. eexists. split; reflexivity.
  - exists t, out. split; [exact Hrun|]. split.
    + apply Hnull. eexists. reflexivity.
    + eapply (Hothers "Reuse Potential (%)"); try reflexivity. discriminate.
Defined.

(** C4, counterexample. With the recovery-rate artifact absent at import
    and the other four predictors succeeding, a record that already
    carries a recovery rate keeps it in the result: the failing KPI's
    entry is neither absent nor null. *)
Lemma absent_predictor_keeps_caller_value :
  Sample.fs_no_recovery Sample.recovery_pkl = None
  /\ lookup "Recovery Rate (%)"
       (match snd (Predict.make_prediction Sample.BASE_DIR
                     Sample.fs_no_recovery (Sample.record_with_kpi (50 # 1))
                     Sample.fs_no_recovery) with
        | Ok out => out
        | Err _ => []
        end) = Some (VNum (50 # 1))
  /\ ~ Predict.failing_kpi_missing_or_null Sample.BASE_DIR Sample.fs_no_recovery.
Proof.
  split; [reflexivity|]. split; [reflexivity|]. intros H.
  destruct (H (Sample.record_with_kpi (50 # 1)) Sample.fs_no_recovery
              [PathExists Sample.encoders_pkl; JoblibLoad Sample.encoders_pkl]
              [ ("Technology", VNum (inject_Z 1));
                ("Transport Mode", VNum (inject_Z 2));
                ("Transport Distance (km)", VNum (300 # 1));
                ("Recovery Rate (%)", VNum (50 # 1)) ]
              "Recovery Rate (%)" Sample.recovery_pkl)
    as (t & out & Hrun & Hk).
  - reflexivity.
  - reflexivity.
  - other_models_succeed.
  - left. reflexivity.
  - vm_compute in Hrun. inversion Hrun; subst out.
    destruct Hk as [Hk|Hk]; vm_compute in Hk; discriminate.
Qed.

End PredictSpec.

(** ** app.py: autofill, then predict *)

Module AppSpec.
Section Globals.

Variable imputer : option (frame -> result (list Q)).
Variable label_encoders : dict LabelEncoder.
Variable df_training : DataFrame.
Variable BASE_DIR : string.
Variable fs0 : FS.

Local Abbreviation run :=
  (App.autofill_then_predict imputer label_encoders df_training BASE_DIR fs0).
Local Abbreviation ENCODERS_PATH := (Predict.ENCODERS_PATH BASE_DIR).

(** C5 (amended). During a call no imputer or KPI-model artifact is read,
    and autofill touches no file at all. make_prediction, once autofill
    has returned and at least one KPI model is loaded, checks for the
    label-encoder file and loads it when it exists, on every call; these
    are the only file events. The outcome of a call is a function of the
    record, the artifacts loaded at import and the content of that one
    file at the time of the call. *)
Theorem call_reads_only_the_encoder_file (input_dict : dict value) (fs : FS) :
  file_events (fst (run input_dict fs)) =
  match Autofill.autofill_missing_values
          imputer label_encoders df_training input_dict,
        Predict.MODELS BASE_DIR fs0 with
  | Ok _, _ :: _ =>
      PathExists ENCODERS_PATH
        :: match fs ENCODERS_PATH with
           | Some _ => [JoblibLoad ENCODERS_PATH]
           | None => []
           end
  | _, _ => []
  end
  /\ (forall fs', fs' ENCODERS_PATH = fs ENCODERS_PATH ->
                  run input_dict fs' = run input_dict fs).
Proof.
  unfold App.autofill_then_predict, io_bind, io_lift.
  destruct (Autofill.autofill_missing_values
              imputer label_encoders df_training input_dict) as [d|e].
  - split.
    + pose proof (PredictSpec.file_events_make_prediction
                    BASE_DIR fs0 d fs) as H.
      destruct (Predict.make_prediction BASE_DIR fs0 d fs) as [t r].
      exact H.
    + intros fs' H.
      now rewrite (PredictSpec.make_prediction_same_encoder_file
                     BASE_DIR fs0 d fs fs' H).
  - split; reflexivity.
Qed.

End Globals.

(** C5, counterexample. On the sample artifacts a call checks for and
    loads the label-encoder file, so a call is not free of file reads. *)
Lemma call_reads_encoder_file_every_time :
  file_events
    (fst (App.autofill_then_predict (Some Sample.imputer)
            Sample.label_encoders Sample.df_training Sample.BASE_DIR
            Sample.fs_no_recovery Sample.record_unseen
            Sample.fs_no_recovery))
  = [PathExists Sample.encoders_pkl; JoblibLoad Sample.encoders_pkl]
  /\ ~ App.call_acquires_nothing (Some Sample.imputer) Sample.label_encoders
        Sample.df_training Sample.BASE_DIR Sample.fs_no_recovery.
Proof.
  split; [reflexivity|]. intros H.
  destruct (H Sample.record_unseen Sample.fs_no_recovery
              Sample.fs_no_encoders) as [Ht _].
  vm_compute in Ht. discriminate.
Qed.

(** The same record with the same loaded models gives another prediction
    once the label-encoder file is gone: the labels then reach the
    regressor unencoded. *)
Example call_depends_on_encoder_file :
  lookup "Recycled Content (%)"
    (match snd (App.autofill_then_predict (Some Sample.imputer)
                  Sample.label_encoders Sample.df_training
                  Sample.BASE_DIR Sample.fs_no_recovery
                  Sample.record_unseen Sample.fs_no_recovery) with
     | Ok out => out
     | Err _ => []
     end) = Some (VNum (303 # 1))
  /\ lookup "Recycled Content (%)"
       (match snd (App.autofill_then_predict (Some Sample.imputer)
                     Sample.label_encoders Sample.df_training
                     Sample.BASE_DIR Sample.fs_no_recovery
                     Sample.record_unseen Sample.fs_no_encoders) with
        | Ok out => out
        | Err _ => []
        end) = Some (VNum (300 # 1)).
Proof. split; vm_compute; reflexivity. Qed.

End AppSpec.

(** ** predict.py: further properties *)

Module PredictMore.
Section Globals.

Variable BASE_DIR : string.
Variable fs0 : FS.

Local Abbreviation MODEL_PATHS := (Predict.MODEL_PATHS BASE_DIR).
Local Abbreviation MODELS := (Predict.MODELS BASE_DIR fs0).
Local Abbreviation all_kpis := (Predict.all_kpis BASE_DIR).
Local Abbreviation ENCODERS_PATH := (Predict.ENCODERS_PATH BASE_DIR).
Local Abbreviation predict_loop := (Predict.predict_loop BASE_DIR).
Local Abbreviation encode_step := (Predict.encode_step BASE_DIR).
Local Abbreviation make_prediction := (Predict.make_prediction BASE_DIR fs0).
Local Abbreviation outcome := (Predict.outcome BASE_DIR).
Local Abbreviation warnings_of := (Notions.warnings_of BASE_DIR).

(** *** Keys of assigned and merged dicts *)

Lemma mem_dict_set {V} (k k' : string) (v : V) (d : dict V) :
  mem k (dict_set k' v d) = (String.eqb k k' || mem k d)%bool.
Proof.
  unfold mem. destruct (String.eqb_spec k k') as [->|Hne]; simpl.
  - now rewrite lookup_dict_set_eq.
  - now rewrite lookup_dict_set_neq.
Qed.

Lemma keys_set_all {V W} (g : string -> W -> V) (l : dict W) (p : dict V) :
  NoDup (keys l) ->
  keys (set_all g l p) =
  (keys p ++ filter (fun k => negb (mem k p)) (keys l))%list.
Proof.
  revert p. induction l as [|[k w] l IH]; intros p Hnd.
  - simpl. now rewrite app_nil_r.
  - inversion Hnd as [|? ? Hnot Hnd']; subst.
    rewrite set_all_cons, IH by assumption. rewrite keys_dict_set.
    assert (Hext : filter (fun k0 => negb (mem k0 (dict_set k (g k w) p)))
                          (keys l)
                   = filter (fun k0 => negb (mem k0 p)) (keys l)).
    { apply filter_ext_in. intros k0 Hk0. rewrite mem_dict_set.
      destruct (String.eqb_spec k0 k) as [->|]; [contradiction|reflexivity]. }
    rewrite Hext. simpl. destruct (mem k p); simpl; auto.
    now rewrite <- app_assoc.
Qed.

(** *** What a returned call went through *)

Lemma predict_loop_trace (models : dict artifact) (df : frame)
      (p : dict value) (fs : FS) :
  predict_loop models df p fs
  = (warnings_of df models, Ok (set_all (fun _ => outcome df) models p)).
Proof.
  revert p. induction models as [|[metric model] models IH]; intros p.
  - reflexivity.
  - rewrite set_all_cons. simpl. unfold io_bind.
    unfold Predict.predict_one at 1, io_try, io_bind, io_lift, io_ret, print.
    unfold Predict.outcome, Notions.warnings_of. simpl.
    destruct (Predict.call_predict model (drop all_kpis df)) as [y|e];
      simpl; rewrite IH; reflexivity.
Qed.

Lemma make_prediction_returned (d : dict value) (fs : FS)
      (t : list io_event) (out : dict value) :
  make_prediction d fs = (t, Ok out) ->
  exists t1 df_input,
    encode_step d fs = (t1, Ok df_input)
    /\ MODELS <> []
    /\ t = (t1 ++ warnings_of df_input MODELS)%list
    /\ out = dict_merge d (set_all (fun _ => outcome df_input) MODELS []).
Proof.
  intros H.
  destruct MODELS as [|m ms] eqn:EM.
  { rewrite (PredictSpec.no_models_always_spec BASE_DIR fs0 d fs EM) in H.
    discriminate. }
  assert (Hne : MODELS <> []) by (rewrite EM; discriminate).
  revert H.
  unfold Predict.make_prediction, Predict.make_prediction_body, io_try.
  rewrite EM. rewrite <- EM.
  unfold Predict.predictions_of, io_bind, io_ret.
  destruct (encode_step d fs) as [t1 [df|e]] eqn:He.
  - rewrite predict_loop_trace. simpl. rewrite app_nil_r. intros H.
    inversion H; subst. exists t1, df. repeat split; auto.
  - simpl. discriminate.
Qed.

(** *** The result record *)

(** X1. A returned result keeps every field of the input, in the input's
    order, and appends the names of the loaded models the input lacked, in
    the order of MODEL_PATHS; a field that is not the name of a loaded
    model keeps the input's value. *)
Theorem make_prediction_keeps_input_fields
        (d : dict value) (fs : FS) (t : list io_event) (out : dict value) :
  make_prediction d fs = (t, Ok out) ->
  keys out = (keys d ++ filter (fun k => negb (mem k d)) (keys MODELS))%list
  /\ (forall k, lookup k MODELS = None -> lookup k out = lookup k d).
Proof.
  intros H.
  destruct (make_prediction_returned d fs t out H)
    as (t1 & df & _ & _ & _ & ->).
  split.
  - rewrite dict_merge_set_all.
    rewrite keys_set_all by (apply NoDup_keys_set_all; constructor).
    rewrite (keys_set_all (fun _ => outcome df) MODELS [])
      by apply PredictSpec.NoDup_keys_MODELS.
    simpl. f_equal. f_equal.
    clear. induction (keys MODELS) as [|x l IH]; simpl; congruence.
  - intros k Hk. now rewrite PredictSpec.lookup_output, Hk.
Qed.

(** X2. In a returned result the entry of every loaded model is what its
    predictor gave on the frame of step 1 without the KPI columns: the
    predicted number, or null when the call raised. A value the input
    carried under that name is always replaced. *)
Theorem loaded_model_replaces_input_value
        (d : dict value) (fs : FS) (t : list io_event) (out : dict value) :
  make_prediction d fs = (t, Ok out) ->
  exists t1 df_input,
    encode_step d fs = (t1, Ok df_input)
    /\ forall k model,
         lookup k MODELS = Some model ->
         lookup k out =
         Some (match Predict.call_predict model (drop all_kpis df_input) with
               | Ok y => VNum y
               | Err _ => VNull
               end).
Proof.
  intros H.
  destruct (make_prediction_returned d fs t out H)
    as (t1 & df & He & _ & _ & ->).
  exists t1, df. split; [exact He|]. intros k model Hk.
  now rewrite PredictSpec.lookup_output, Hk.
Qed.

(** X4. A returned call prints exactly one warning for each loaded model
    whose predictor raised, in the order of the loop, after the file
    events of step 1, and nothing else. *)
Theorem one_warning_per_failing_predictor
        (d : dict value) (fs : FS) (t : list io_event) (out : dict value) :
  make_prediction d fs = (t, Ok out) ->
  exists t1 df_input,
    encode_step d fs = (t1, Ok df_input)
    /\ t = (t1 ++ warnings_of df_input MODELS)%list
    /\ file_events t1 = t1
    /\ file_events (warnings_of df_input MODELS) = [].
Proof.
  intros H.
  destruct (make_prediction_returned d fs t out H)
    as (t1 & df & He & _ & -> & _).
  exists t1, df. repeat split; auto.
  - rewrite PredictSpec.encode_step_run in He.
    destruct (fs ENCODERS_PATH); inversion He; reflexivity.
  - unfold Notions.warnings_of, file_events.
    generalize MODELS. intros l.
    induction l as [|[m a] l IH]; simpl; auto.
    destruct (Predict.call_predict a (drop all_kpis df)); simpl; exact IH.
Qed.

(** *** The models loaded at import *)

Lemma keys_load_models (paths : dict string) (acc : dict artifact) :
  NoDup (keys paths) ->
  (forall k, In k (keys paths) -> mem k acc = false) ->
  keys (Predict.load_models fs0 paths acc) =
  (keys acc ++ map fst (filter (Notions.artifact_exists fs0) paths))%list.
Proof.
  revert acc. induction paths as [|[n p] paths IH]; intros acc Hnd Hfresh.
  - simpl. now rewrite app_nil_r.
  - inversion Hnd as [|? ? Hnot Hnd']; subst. simpl.
    unfold Notions.artifact_exists at 1. simpl.
    destruct (fs0 p) as [a|].
    + rewrite IH; auto.
      * rewrite keys_dict_set, (Hfresh n) by (simpl; auto).
        now rewrite <- app_assoc.
      * intros k Hk. rewrite mem_dict_set, (Hfresh k) by (simpl; auto).
        destruct (String.eqb_spec k n) as [->|]; [contradiction|reflexivity].
    + apply IH; auto. intros k Hk. apply Hfresh. simpl. auto.
Qed.

(** X3. The models held after import are exactly the KPI artifacts that
    existed then: their names come in the order of MODEL_PATHS, each name
    is bound to the artifact stored at its path, and a KPI whose file was
    missing has no entry. *)
Theorem models_are_the_artifacts_present_at_import :
  keys MODELS = map fst (filter (Notions.artifact_exists fs0) MODEL_PATHS)
  /\ (forall k,
        lookup k MODELS =
        match lookup k MODEL_PATHS with Some p => fs0 p | None => None end)
  /\ (forall k, In k (keys MODELS) -> In k all_kpis).
Proof.
  assert (Hk : keys MODELS
               = map fst (filter (Notions.artifact_exists fs0) MODEL_PATHS)).
  { unfold Predict.MODELS.
    rewrite keys_load_models; auto. apply PredictSpec.NoDup_all_kpis. }
  split; [exact Hk|]. split; [apply PredictSpec.lookup_MODELS|].
  intros k Hin. rewrite Hk in Hin. apply in_map_iff in Hin.
  destruct Hin as (np & <- & Hf). apply filter_In in Hf.
  unfold Predict.all_kpis, keys. apply in_map. tauto.
Qed.

(** *** Dropping the KPI columns *)

Lemma mem_drop (K : list string) (d : frame) (col : string) :
  existsb (String.eqb col) K = false -> mem col (drop K d) = mem col d.
Proof.
  intros HK. unfold mem, drop.
  induction d as [|[c v] d IH]; simpl; auto.
  destruct (existsb (String.eqb c) K) eqn:Ec; simpl.
  - destruct (String.eqb_spec col c) as [->|]; [congruence|exact IH].
  - destruct (String.eqb col c); auto.
Qed.

Lemma map_column_drop_in (f : value -> result value) (K : list string)
      (col : string) (d d' : frame) :
  existsb (String.eqb col) K = true ->
  map_column f col d = Ok d' -> drop K d' = drop K d.
Proof.
  intros HK. revert d'. unfold drop.
  induction d as [|[c v] d IH]; simpl; intros d' H.
  - now inversion H.
  - destruct (if String.eqb col c then f v else Ok v) as [v'|] eqn:E;
      simpl in H; [|discriminate].
    destruct (map_column f col d) as [d''|]; simpl in H; [|discriminate].
    inversion H; subst. simpl. rewrite (IH d'' eq_refl).
    destruct (String.eqb_spec col c) as [->|Hne].
    + now rewrite HK.
    + now inversion E.
Qed.

Lemma map_column_drop_out (f : value -> result value) (K : list string)
      (col : string) (d d' : frame) :
  existsb (String.eqb col) K = false ->
  map_column f col d = Ok d' ->
  map_column f col (drop K d) = Ok (drop K d').
Proof.
  intros HK. revert d'. unfold drop.
  induction d as [|[c v] d IH]; simpl; intros d' H.
  - now inversion H.
  - destruct (if String.eqb col c then f v else Ok v) as [v'|] eqn:E;
      simpl in H; [|discriminate].
    destruct (map_column f col d) as [d''|]; simpl in H; [|discriminate].
    inversion H; subst. simpl. specialize (IH d'' eq_refl).
    destruct (existsb (String.eqb c) K) eqn:Ec; simpl; auto.
    now rewrite E, IH.
Qed.

Lemma encode_loop_drop (encs : dict LabelEncoder) (K : list string)
      (d1 d2 e1 e2 : frame) :
  drop K d1 = drop K d2 ->
  Predict.encode_loop encs d1 = Ok e1 ->
  Predict.encode_loop encs d2 = Ok e2 ->
  drop K e1 = drop K e2.
Proof.
  revert d1 d2. induction encs as [|[col le] encs IH]; simpl;
    intros d1 d2 Hd H1 H2.
  - congruence.
  - destruct (if mem col d1
              then map_column (Predict.encode_cell le) col d1
              else Ok d1) as [d1'|] eqn:E1; simpl in H1; [|discriminate].
    destruct (if mem col d2
              then map_column (Predict.encode_cell le) col d2
              else Ok d2) as [d2'|] eqn:E2; simpl in H2; [|discriminate].
    apply (IH d1' d2'); auto.
    destruct (existsb (String.eqb col) K) eqn:HK.
    + assert (D1 : drop K d1' = drop K d1).
      { destruct (mem col d1); [|congruence].
        eapply map_column_drop_in; eauto. }
      assert (D2 : drop K d2' = drop K d2).
      { destruct (mem col d2); [|congruence].
        eapply map_column_drop_in; eauto. }
      congruence.
    + assert (Hm : mem col d1 = mem col d2).
      { rewrite <- (mem_drop K d1 col HK), <- (mem_drop K d2 col HK).
        now rewrite Hd. }
      rewrite <- Hm in E2. destruct (mem col d1); [|congruence].
      apply (map_column_drop_out _ K) in E1; auto.
      apply (map_column_drop_out _ K) in E2; auto.
      rewrite Hd in E1. congruence.
Qed.

Lemma encode_step_drop (d1 d2 df1 df2 : frame) (fs : FS)
      (t1 t2 : list io_event) :
  drop all_kpis d1 = drop all_kpis d2 ->
  encode_step d1 fs = (t1, Ok df1) ->
  encode_step d2 fs = (t2, Ok df2) ->
  t1 = t2 /\ drop all_kpis df1 = drop all_kpis df2.
Proof.
  intros Hd. rewrite !PredictSpec.encode_step_run.
  destruct (fs ENCODERS_PATH) as [a|].
  - destruct (Predict.items a) as [encs|e]; simpl; [|discriminate].
    intros H1 H2. inversion H1; inversion H2; subst. split; auto.
    eapply encode_loop_drop; eauto.
  - intros H1 H2. inversion H1; inversion H2; subst. auto.
Qed.

Lemma encode_step_same_failure (d1 d2 : frame) (fs : FS)
      (t1 : list io_event) (e : exn) :
  encode_step d1 fs = (t1, Err e) -> encode_step d2 fs = (t1, Err e).
Proof.
  rewrite !PredictSpec.encode_step_run.
  destruct (fs ENCODERS_PATH) as [a|]; [|discriminate].
  destruct (Predict.items a) as [encs|e']; simpl; auto.
  destruct (PredictSpec.encode_loop_total encs d1) as (df & ->).
  discriminate.
Qed.

Lemma outcome_drop (df1 df2 : frame) (model : artifact) :
  drop all_kpis df1 = drop all_kpis df2 -> outcome df1 model = outcome df2 model.
Proof. intros H. unfold Predict.outcome. now rewrite H. Qed.

(** X5. The predictions depend on the record only through its fields
    other than the five KPIs: two records that agree once their KPI
    fields are removed, whether or not they carry KPI fields at all, give
    the same predictions and the same warnings. *)
Theorem predictions_depend_on_non_kpi_fields_only
        (d1 d2 : dict value) (fs : FS) :
  drop all_kpis d1 = drop all_kpis d2 ->
  Predict.predictions_of BASE_DIR fs0 d1 fs
  = Predict.predictions_of BASE_DIR fs0 d2 fs.
Proof.
  intros Hd. unfold Predict.predictions_of, io_bind.
  destruct (encode_step d1 fs) as [t1 [df1|e]] eqn:E1.
  - destruct (encode_step d2 fs) as [t2 [df2|e]] eqn:E2.
    + destruct (encode_step_drop d1 d2 df1 df2 fs t1 t2 Hd E1 E2) as [-> Hdf].
      now rewrite (PredictSpec.predict_loop_drop
                     BASE_DIR MODELS df1 df2 [] fs Hdf).
    + rewrite (encode_step_same_failure d2 d1 fs t2 e E2) in E1.
      discriminate.
  - now rewrite (encode_step_same_failure d1 d2 fs t1 e E1).
Qed.

(** *** Calling make_prediction on its own result *)

Lemma dict_set_same {V} (k : string) (v : V) (d : dict V) :
  lookup k d = Some v -> dict_set k v d = d.
Proof.
  induction d as [|[k' v'] d IH]; simpl; [discriminate|].
  destruct (String.eqb_spec k k') as [->|Hne]; intros H.
  - now inversion H.
  - now rewrite IH.
Qed.

Lemma set_all_absorbed {V W} (g : string -> W -> V) (l : dict W)
      (p : dict V) :
  (forall k w, In (k, w) l -> lookup k p = Some (g k w)) ->
  set_all g l p = p.
Proof.
  induction l as [|[k w] l IH]; intros H; auto.
  rewrite set_all_cons, dict_set_same by (apply H; simpl; auto).
  apply IH. intros k' w' Hin. apply H. simpl. auto.
Qed.

Lemma In_lookup_NoDup {V} (k : string) (v : V) (l : dict V) :
  NoDup (keys l) -> In (k, v) l -> lookup k l = Some v.
Proof.
  induction l as [|[k' v'] l IH]; simpl; [tauto|].
  intros Hnd [E|Hin]; inversion Hnd as [|? ? Hnot Hnd']; subst.
  - inversion E; subst. now rewrite String.eqb_refl.
  - destruct (String.eqb_spec k k') as [->|Hne]; auto.
    exfalso. apply Hnot. unfold keys. now apply (in_map fst) in Hin.
Qed.

Lemma dict_merge_absorbed {V} (a b : dict V) :
  NoDup (keys b) -> dict_merge (dict_merge a b) b = dict_merge a b.
Proof.
  intros Hnd. rewrite (dict_merge_set_all (dict_merge a b) b).
  apply set_all_absorbed. intros k w Hin.
  rewrite lookup_dict_merge by assumption.
  now rewrite (In_lookup_NoDup k w b Hnd Hin).
Qed.

Lemma drop_dict_set (K : list string) (k : string) (v : value) (d : frame) :
  existsb (String.eqb k) K = true -> drop K (dict_set k v d) = drop K d.
Proof.
  intros HK. unfold drop. induction d as [|[k' v'] d IH]; simpl.
  - now rewrite HK.
  - destruct (String.eqb_spec k k') as [->|Hne]; simpl.
    + now rewrite HK.
    + now rewrite IH.
Qed.

Lemma drop_set_all {W} (K : list string) (g : string -> W -> value)
      (l : dict W) (p : frame) :
  (forall k, In k (keys l) -> existsb (String.eqb k) K = true) ->
  drop K (set_all g l p) = drop K p.
Proof.
  revert p. induction l as [|[k w] l IH]; intros p H; auto.
  rewrite set_all_cons, IH by (intros k' Hk'; apply H; simpl; auto).
  apply drop_dict_set. apply H. simpl. auto.
Qed.

Lemma set_all_ext {V W} (g g' : string -> W -> V) (l : dict W) (p : dict V) :
  (forall k w, g k w = g' k w) -> set_all g l p = set_all g' l p.
Proof.
  intros H. revert p. induction l as [|[k w] l IH]; intros p; auto.
  now rewrite !set_all_cons, H, IH.
Qed.

Lemma keys_MODELS_are_kpis (k : string) :
  In k (keys MODELS) -> existsb (String.eqb k) all_kpis = true.
Proof.
  intros Hin. apply existsb_eqb_In.
  destruct (lookup k MODELS) as [a|] eqn:E.
  - rewrite PredictSpec.lookup_MODELS in E.
    destruct (lookup k MODEL_PATHS) as [p|] eqn:Ep; [|discriminate].
    eapply lookup_Some_In; eauto.
  - apply lookup_None in E. contradiction.
Qed.

Lemma make_prediction_run (d : dict value) (fs : FS) (t1 : list io_event)
      (df : frame) :
  MODELS <> [] ->
  encode_step d fs = (t1, Ok df) ->
  make_prediction d fs
  = ((t1 ++ warnings_of df MODELS)%list,
     Ok (dict_merge d (set_all (fun _ => outcome df) MODELS []))).
Proof.
  intros Hne He.
  unfold Predict.make_prediction, Predict.make_prediction_body, io_try.
  destruct MODELS as [|m ms] eqn:EM; [congruence|]. rewrite <- EM.
  unfold Predict.predictions_of, io_bind, io_ret.
  rewrite He, predict_loop_trace. simpl. now rewrite app_nil_r.
Qed.

(** X6. make_prediction is idempotent: given back a record it returned,
    under the same file system, it returns that record again with the
    same events. The KPI values it wrote are not features of the second
    run. *)
Theorem make_prediction_idempotent
        (d : dict value) (fs : FS) (t : list io_event) (out : dict value) :
  make_prediction d fs = (t, Ok out) ->
  make_prediction out fs = (t, Ok out).
Proof.
  intros H.
  destruct (make_prediction_returned d fs t out H)
    as (t1 & df & He & Hne & -> & ->).
  set (preds := set_all (fun _ => outcome df) MODELS []).
  assert (Hpk : NoDup (keys preds))
    by (apply NoDup_keys_set_all; constructor).
  assert (Hdrop : drop all_kpis (dict_merge d preds) = drop all_kpis d).
  { rewrite dict_merge_set_all. apply drop_set_all.
    intros k Hk. apply keys_MODELS_are_kpis.
    unfold preds in Hk.
    rewrite keys_set_all in Hk by apply PredictSpec.NoDup_keys_MODELS.
    simpl in Hk. apply filter_In in Hk. tauto. }
  destruct (encode_step (dict_merge d preds) fs) as [t1' [df'|e]] eqn:He'.
  - destruct (encode_step_drop _ _ _ _ fs _ _ Hdrop He' He) as [-> Hdf].
    rewrite (make_prediction_run _ fs t1 df' Hne He').
    assert (Hw : warnings_of df' MODELS = warnings_of df MODELS).
    { unfold Notions.warnings_of. now rewrite Hdf. }
    assert (Hp : set_all (fun _ => outcome df') MODELS [] = preds).
    { apply set_all_ext. intros _ model. now apply outcome_drop. }
    rewrite Hw, Hp, dict_merge_absorbed by assumption. reflexivity.
  - rewrite (encode_step_same_failure _ d fs t1' e He') in He.
    discriminate.
Qed.

(** *** The artifact paths *)

Lemma string_app_inj_l (a b c : string) :
  (a ++ b)%string = (a ++ c)%string -> b = c.
Proof.
  induction a as [|x a IH]; simpl; auto. intros H. inversion H. auto.
Qed.

Lemma ends_with_slash_app (a : string) (c : ascii) (s : string) :
  ends_with_slash (a ++ String c s) = ends_with_slash (String c s).
Proof.
  induction a as [|x a IH]; auto.
  change ((String x a ++ String c s)%string)
    with (String x (a ++ String c s)).
  rewrite <- IH. simpl. destruct (a ++ String c s)%string eqn:E; auto.
  destruct a; discriminate.
Qed.

Lemma MODEL_DIR_is_a_directory_name :
  Predict.MODEL_DIR BASE_DIR <> EmptyString
  /\ ends_with_slash (Predict.MODEL_DIR BASE_DIR) = false.
Proof.
  unfold Predict.MODEL_DIR, os_path_join. simpl starts_with_slash.
  cbv iota.
  destruct (String.eqb BASE_DIR "" || ends_with_slash BASE_DIR)%bool.
  - split; [destruct BASE_DIR; discriminate|].
    now rewrite ends_with_slash_app.
  - split; [destruct BASE_DIR; discriminate|].
    change ("/" ++ "model")%string with "/model".
    now rewrite ends_with_slash_app.
Qed.

Lemma join_MODEL_DIR (f : string) :
  starts_with_slash f = false ->
  os_path_join (Predict.MODEL_DIR BASE_DIR) f
  = (Predict.MODEL_DIR BASE_DIR ++ "/" ++ f)%string.
Proof.
  intros Hf. destruct MODEL_DIR_is_a_directory_name as [Hne Hs].
  unfold os_path_join at 1. rewrite Hf, Hs.
  destruct (String.eqb_spec (Predict.MODEL_DIR BASE_DIR) ""); [contradiction|].
  reflexivity.
Qed.

(** X7. Whatever the base directory, the label-encoder file and the five
    KPI model files are six different paths, all directly under the model
    directory: no two artifacts are read from the same file. *)
Theorem artifact_paths_are_distinct :
  NoDup (ENCODERS_PATH :: map snd MODEL_PATHS)
  /\ (forall p, In p (ENCODERS_PATH :: map snd MODEL_PATHS) ->
        exists f, p = (Predict.MODEL_DIR BASE_DIR ++ "/" ++ f)%string
                  /\ index 0 "/" f = None).
Proof.
  unfold Predict.ENCODERS_PATH, Predict.MODEL_PATHS. simpl map.
  rewrite !join_MODEL_DIR by reflexivity.
  split.
  - repeat (constructor;
            [simpl; intros H;
             repeat (destruct H as [H|H];
                     [apply string_app_inj_l in H; discriminate|]);
             exact H|]).
    constructor.
  - intros p Hin. simpl in Hin.
    repeat (destruct Hin as [<-|Hin];
            [eexists; split; [reflexivity|reflexivity]|]).
    destruct Hin.
Qed.

End Globals.

(** *** Runs on the sample artifacts *)

Lemma sample_run_broken_recovery :
  Predict.make_prediction Sample.BASE_DIR Sample.fs_broken_recovery
    (Sample.record_with_kpi (50 # 1)) Sample.fs_broken_recovery
  = (Sample.trace_broken_recovery, Ok Sample.out_broken_recovery).
Proof. reflexivity. Qed.

Lemma make_prediction_keeps_input_fields_witness :
  keys Sample.out_broken_recovery
  = [ "Technology"; "Transport Mode"; "Transport Distance (km)";
      "Recovery Rate (%)"; "Recycled Content (%)"; "Resource Efficiency (%)";
      "Extended Product Life (years)"; "Reuse Potential (%)" ]
  /\ lookup "Transport Mode" Sample.out_broken_recovery
     = Some (VStr "Truck").
Proof.
  destruct (make_prediction_keeps_input_fields
              Sample.BASE_DIR Sample.fs_broken_recovery
              (Sample.record_with_kpi (50 # 1)) Sample.fs_broken_recovery
              Sample.trace_broken_recovery Sample.out_broken_recovery
              eq_refl) as [Hk Hl].
  split; [exact Hk|]. exact (Hl "Transport Mode" eq_refl).
Defined.

Lemma loaded_model_replaces_input_value_witness :
  lookup "Recovery Rate (%)" (Sample.record_with_kpi (50 # 1))
  = Some (VNum (50 # 1))
  /\ lookup "Recovery Rate (%)" Sample.out_broken_recovery = Some VNull
  /\ lookup "Recycled Content (%)" Sample.out_broken_recovery
     = Some (VNum (303 # 1)).
Proof.
  destruct (loaded_model_replaces_input_value
              Sample.BASE_DIR Sample.fs_broken_recovery
              (Sample.record_with_kpi (50 # 1)) Sample.fs_broken_recovery
              Sample.trace_broken_recovery Sample.out_broken_recovery
              eq_refl) as (t1 & df & He & Hl).
  vm_compute in He. inversion He; subst.
  split; [reflexivity|]. split.
  - exact (Hl "Recovery Rate (%)" Sample.model_broken eq_refl).
  - exact (Hl "Recycled Content (%)" Sample.model_sum eq_refl).
Defined.

Lemma one_warning_per_failing_predictor_witness :
  exists t1 df_input,
    Predict.encode_step Sample.BASE_DIR (Sample.record_with_kpi (50 # 1))
      Sample.fs_broken_recovery = (t1, Ok df_input)
    /\ Sample.trace_broken_recovery
       = (t1 ++ Notions.warnings_of Sample.BASE_DIR df_input
                  (Predict.MODELS Sample.BASE_DIR Sample.fs_broken_recovery))%list
    /\ file_events t1 = t1
    /\ file_events
         (Notions.warnings_of Sample.BASE_DIR df_input
            (Predict.MODELS Sample.BASE_DIR Sample.fs_broken_recovery)) = [].
Proof.
  exact (one_warning_per_failing_predictor
           Sample.BASE_DIR Sample.fs_broken_recovery
           (Sample.record_with_kpi (50 # 1)) Sample.fs_broken_recovery
           Sample.trace_broken_recovery Sample.out_broken_recovery eq_refl).
Defined.

Lemma predictions_depend_on_non_kpi_fields_only_witness :
  drop (Predict.all_kpis Sample.BASE_DIR) (Sample.record_with_kpi (50 # 1))
  = drop (Predict.all_kpis Sample.BASE_DIR) Sample.record_no_kpi
  /\ Predict.predictions_of Sample.BASE_DIR Sample.fs_broken_recovery
       (Sample.record_with_kpi (50 # 1)) Sample.fs_no_encoders
     = Predict.predictions_of Sample.BASE_DIR Sample.fs_broken_recovery
         Sample.record_no_kpi Sample.fs_no_encoders.
Proof.
  assert (H : drop (Predict.all_kpis Sample.BASE_DIR)
                (Sample.record_with_kpi (50 # 1))
              = drop (Predict.all_kpis Sample.BASE_DIR) Sample.record_no_kpi)
    by reflexivity.
  split; [exact H|].
  exact (predictions_depend_on_non_kpi_fields_only
           Sample.BASE_DIR Sample.fs_broken_recovery _ _
           Sample.fs_no_encoders H).
Defined.

Lemma make_prediction_idempotent_witness :
  Predict.make_prediction Sample.BASE_DIR Sample.fs_broken_recovery
    Sample.out_broken_recovery Sample.fs_broken_recovery
  = (Sample.trace_broken_recovery, Ok Sample.out_broken_recovery).
Proof.
  exact (make_prediction_idempotent
           Sample.BASE_DIR Sample.fs_broken_recovery
           (Sample.record_with_kpi (50 # 1)) Sample.fs_broken_recovery
           Sample.trace_broken_recovery Sample.out_broken_recovery eq_refl).
Defined.

End PredictMore.

(** ** The categorical codec: further properties *)

Module CodecMore.

Lemma np_getitem_in_range (a : list string) (i : Z) (s : string) :
  np_getitem a i = Ok s -> In s a.
Proof.
  unfold np_getitem. cbv zeta.
  destruct ((0 <=? (if i <? 0 then i + Z.of_nat (List.length a) else i))
            && ((if i <? 0 then i + Z.of_nat (List.length a) else i)
                <? Z.of_nat (List.length a)))%bool eqn:E; [|discriminate].
  intros H. inversion H; subst. apply andb_prop in E. destruct E as [E1 E2].
  apply Z.leb_le in E1. apply Z.ltb_lt in E2. apply nth_In. lia.
Qed.

Lemma decode_label_or_unknown (le : LabelEncoder) (x : Z) (s : string) :
  Autofill.decode le x = Ok s -> In s (classes_ le) \/ s = Unknown.
Proof.
  unfold Autofill.decode.
  destruct (x <? Z.of_nat (List.length (classes_ le))).
  - intros H. left. eapply np_getitem_in_range; eauto.
  - intros H. right. now inversion H.
Qed.

(** X8. A code whose rounded value is not negative and fits a 64-bit
    integer always decodes, never raising: to the label at that index
    when the index is inside the vocabulary, to "Unknown" when it is at
    or beyond its end. *)
Theorem decode_of_nonnegative_code (le : LabelEncoder) (q : Q) :
  0 <= np_round q < 2 ^ 63 ->
  Autofill.decode_cell le (VNum q) =
  Ok (VStr (if np_round q <? Z.of_nat (List.length (classes_ le))
            then nth (Z.to_nat (np_round q)) (classes_ le) EmptyString
            else Unknown))
  /\ (np_round q < Z.of_nat (List.length (classes_ le)) ->
      In (nth (Z.to_nat (np_round q)) (classes_ le) EmptyString)
         (classes_ le)).
Proof.
  intros [H _]. split.
  - unfold Autofill.decode_cell. simpl.
    destruct (Z.ltb_spec (np_round q) (Z.of_nat (List.length (classes_ le)))).
    + now rewrite CodecSpec.decode_in_range by lia.
    + now rewrite CodecSpec.decode_above_range by lia.
  - intros Hlt. apply nth_In. lia.
Qed.

Lemma decode_of_nonnegative_code_witness :
  0 <= np_round (17 # 10) < 2 ^ 63
  /\ Autofill.decode_cell Sample.transport_le (VNum (17 # 10))
     = Ok (VStr "Truck")
  /\ Autofill.decode_cell Sample.transport_le (VNum (5 # 2))
     = Ok (VStr "Truck")
  /\ Autofill.decode_cell Sample.transport_le (VNum (7 # 2))
     = Ok (VStr "Unknown").
Proof.
  assert (H1 : 0 <= np_round (17 # 10) < 2 ^ 63)
    by (vm_compute; split; [discriminate|reflexivity]).
  assert (H2 : 0 <= np_round (5 # 2) < 2 ^ 63)
    by (vm_compute; split; [discriminate|reflexivity]).
  assert (H3 : 0 <= np_round (7 # 2) < 2 ^ 63)
    by (vm_compute; split; [discriminate|reflexivity]).
  split; [exact H1|]. split; [|split].
  - exact (proj1 (decode_of_nonnegative_code Sample.transport_le _ H1)).
  - exact (proj1 (decode_of_nonnegative_code Sample.transport_le _ H2)).
  - exact (proj1 (decode_of_nonnegative_code Sample.transport_le _ H3)).
Defined.

Lemma index_of_nth (l : list string) (i : nat) :
  NoDup l -> (i < List.length l)%nat ->
  index_of (nth i l EmptyString) l = Some i.
Proof.
  revert i. induction l as [|x l IH]; simpl; intros i Hnd Hlt; [lia|].
  inversion Hnd as [|? ? Hnot Hnd']; subst. destruct i as [|i].
  - now rewrite String.eqb_refl.
  - destruct (String.eqb_spec (nth i l EmptyString) x) as [E|_].
    + exfalso. apply Hnot. rewrite <- E. apply nth_In. lia.
    + rewrite IH by (auto; lia). reflexivity.
Qed.

(** X9. For a vocabulary without repeated labels (as sklearn keeps it) and
    a code inside [0, len(vocabulary)), decoding the code and encoding the
    label again, with autofill's lambda or with make_prediction's, gives
    the code back. *)
Theorem encode_decode_round_trip (le : LabelEncoder) (c : Z) :
  NoDup (classes_ le) ->
  0 <= c < Z.of_nat (List.length (classes_ le)) ->
  exists label,
    Autofill.decode le (np_round (inject_Z c)) = Ok label
    /\ Autofill.encode le (VStr label) = Ok c
    /\ Predict.encode le (VStr label) = Ok c.
Proof.
  intros Hnd Hc. exists (nth (Z.to_nat c) (classes_ le) EmptyString).
  rewrite np_round_inject_Z, CodecSpec.decode_in_range by lia.
  split; [reflexivity|].
  assert (Hin : in_classes le (VStr (nth (Z.to_nat c) (classes_ le)
                                         EmptyString)) = true).
  { simpl. apply existsb_eqb_In. apply nth_In. lia. }
  assert (Ht : transform le (VStr (nth (Z.to_nat c) (classes_ le)
                                       EmptyString)) = Ok c).
  { unfold transform. rewrite index_of_nth by (auto; lia).
    now rewrite Z2Nat.id by lia. }
  unfold Autofill.encode, Predict.encode. rewrite Hin. simpl. auto.
Qed.

Lemma encode_decode_round_trip_witness :
  NoDup (classes_ Sample.transport_le)
  /\ 0 <= 1 < Z.of_nat (List.length (classes_ Sample.transport_le))
  /\ exists label,
       Autofill.decode Sample.transport_le (np_round (inject_Z 1)) = Ok label
       /\ Autofill.encode Sample.transport_le (VStr label) = Ok 1
       /\ Predict.encode Sample.transport_le (VStr label) = Ok 1.
Proof.
  assert (H1 : NoDup (classes_ Sample.transport_le)).
  { simpl. repeat (constructor; [simpl; intuition discriminate|]).
    constructor. }
  assert (H2 : 0 <= 1 < Z.of_nat (List.length (classes_ Sample.transport_le)))
    by (simpl; lia).
  split; [exact H1|]. split; [exact H2|].
  exact (encode_decode_round_trip Sample.transport_le 1 H1 H2).
Defined.

(** X10. make_prediction's encode lambda, which has no null test, gives
    the same code as autofill's on every cell, null included: the frame
    the regressors see is encoded as the frame the imputer saw. *)
Theorem both_stages_encode_alike (le : LabelEncoder) (x : value) :
  Predict.encode le x = Autofill.encode le x
  /\ Predict.encode_cell le x = Autofill.encode_cell le x.
Proof.
  assert (H : Predict.encode le x = Autofill.encode le x).
  { unfold Predict.encode, Autofill.encode. now destruct x. }
  split; [exact H|].
  unfold Predict.encode_cell, Autofill.encode_cell. now rewrite H.
Qed.

End CodecMore.

(** ** autofill.py: further properties *)

Module AutofillMore.
Section Globals.

Variable imputer : option (frame -> result (list Q)).
Variable label_encoders : dict LabelEncoder.
Variable df_training : DataFrame.

Local Abbreviation categorical_cols :=
  (Autofill.categorical_cols label_encoders df_training).
Local Abbreviation encode_loop := (Autofill.encode_loop label_encoders).
Local Abbreviation decode_loop := (Autofill.decode_loop label_encoders).
Local Abbreviation encoded_frame :=
  (Autofill.encoded_frame label_encoders df_training).
Local Abbreviation align := (Autofill.align df_training).
Local Abbreviation autofill_missing_values :=
  (Autofill.autofill_missing_values imputer label_encoders df_training).
Local Abbreviation step5_cell := (Notions.step5_cell label_encoders).
Local Abbreviation survives := (Notions.survives label_encoders).

(** *** Frames *)

Lemma Forall2_keys (R : string * value -> string * value -> Prop)
      (l l' : frame) :
  (forall a b, R a b -> fst b = fst a) -> Forall2 R l l' -> keys l' = keys l.
Proof.
  intros HR H. unfold keys.
  induction H as [|a b l l' Hab _ IH]; simpl; auto.
  now rewrite (HR a b Hab), IH.
Qed.

Lemma Forall2_lookup (R : string * value -> string * value -> Prop)
      (l l' : frame) (k : string) (v : value) :
  (forall a b, R a b -> fst b = fst a) ->
  Forall2 R l l' ->
  lookup k l = Some v ->
  exists v', lookup k l' = Some v' /\ R (k, v) (k, v').
Proof.
  intros HR H. induction H as [|[k1 v1] [k2 v2] l l' Hab _ IH]; simpl.
  - discriminate.
  - pose proof (HR _ _ Hab) as E. simpl in E. subst k2.
    destruct (String.eqb_spec k k1) as [->|Hne]; auto.
    intros Hv. inversion Hv; subst. eauto.
Qed.

Lemma frame_of_row_cells (row : list Q) (cols : list string) (df : frame) :
  frame_of_row row cols = Ok df ->
  keys df = cols
  /\ List.length row = List.length cols
  /\ df = combine cols (map VNum row).
Proof.
  unfold frame_of_row.
  destruct (Nat.eqb_spec (List.length row) (List.length cols)) as [E|];
    [|discriminate].
  intros H. inversion H; subst. repeat split; auto.
  unfold keys. clear H. revert row E.
  induction cols as [|c cols IH]; intros [|q row] E; simpl in *;
    try discriminate; auto.
  now rewrite IH by lia.
Qed.

Lemma dict_set_fresh {V} (k : string) (v : V) (d : dict V) :
  ~ In k (keys d) -> dict_set k v d = (d ++ [(k, v)])%list.
Proof.
  induction d as [|[k' v'] d IH]; simpl; auto. intros H.
  destruct (String.eqb_spec k k') as [->|Hne]; [tauto|].
  now rewrite IH by tauto.
Qed.

Lemma set_all_fresh {V} (l p : dict V) :
  NoDup (keys p ++ keys l) ->
  set_all (fun _ v => v) l p = (p ++ l)%list.
Proof.
  revert p. induction l as [|[k v] l IH]; intros p H.
  - simpl. now rewrite app_nil_r.
  - rewrite set_all_cons. simpl in H.
    assert (Hk : ~ In k (keys p)).
    { apply NoDup_remove_2 in H. intros Hin. apply H.
      apply in_or_app. now left. }
    rewrite dict_set_fresh by assumption.
    rewrite IH.
    + now rewrite <- app_assoc.
    + unfold keys in *. rewrite map_app. simpl. rewrite <- app_assoc.
      simpl. exact H.
Qed.

Lemma to_dict_NoDup (df : frame) : NoDup (keys df) -> to_dict df = df.
Proof.
  intros H. unfold to_dict. rewrite dict_merge_set_all.
  now rewrite set_all_fresh.
Qed.

Lemma lookup_set_all_In {V} (l p : dict V) (k : string) (v : V) :
  lookup k (set_all (fun _ x => x) l p) = Some v ->
  In (k, v) l \/ lookup k p = Some v.
Proof.
  revert p. induction l as [|[k' v'] l IH]; intros p H; auto.
  rewrite set_all_cons in H. destruct (IH _ H) as [Hin|Hl].
  - left. simpl. auto.
  - destruct (String.eqb_spec k k') as [->|Hne].
    + rewrite lookup_dict_set_eq in Hl. inversion Hl; subst.
      left. simpl. auto.
    + rewrite lookup_dict_set_neq in Hl by assumption. auto.
Qed.

Lemma lookup_to_dict_In (df : frame) (k : string) (v : value) :
  lookup k (to_dict df) = Some v -> In (k, v) df.
Proof.
  unfold to_dict. rewrite dict_merge_set_all. intros H.
  destruct (lookup_set_all_In df [] k v H) as [Hin|Hl]; auto.
  discriminate.
Qed.

(** *** The two column loops, cell by cell *)

Lemma no_cell_of_absent_column (col : string) (df : frame) :
  mem col df = false -> Forall (fun a => String.eqb (fst a) col = false) df.
Proof.
  intros Hm. apply Forall_forall. intros [k v] Hin. simpl.
  destruct (String.eqb_spec k col) as [->|]; auto.
  assert (mem col df = true); [|congruence].
  apply mem_In. unfold keys. now apply (in_map fst) in Hin.
Qed.

Lemma mapped_once_untouched (f : LabelEncoder -> value -> result value)
      (col : string) (df : frame) :
  lookup col label_encoders = None \/ mem col df = false ->
  Forall2 (Notions.mapped_once label_encoders f [col]) df df.
Proof.
  intros H. assert (Hall : Forall (fun a =>
              String.eqb (fst a) col = false
              \/ lookup (fst a) label_encoders = None) df).
  { destruct H as [Hl|Hm].
    - apply Forall_forall. intros [k v] _. simpl.
      destruct (String.eqb_spec k col) as [->|]; auto.
    - eapply Forall_impl; [|apply no_cell_of_absent_column; exact Hm].
      intros a Ha. now left. }
  clear H. induction Hall as [|[k v] l Hk _ IH]; constructor; auto.
  unfold Notions.mapped_once. simpl in *. split; auto.
  rewrite orb_false_r. destruct Hk as [-> | ->]; auto.
  now destruct (String.eqb k col).
Qed.

Lemma mapped_once_step (f : LabelEncoder -> value -> result value)
      (col : string) (le : LabelEncoder) (df df1 : frame) :
  lookup col label_encoders = Some le ->
  map_column (f le) col df = Ok df1 ->
  Forall2 (Notions.mapped_once label_encoders f [col]) df df1.
Proof.
  intros Hl H. apply map_column_cells in H.
  eapply Forall2_impl; [|exact H]. intros [k v] [k' v'] [E C].
  simpl in *. subst k'. unfold Notions.mapped_once. simpl. split; auto.
  rewrite orb_false_r, (String.eqb_sym k col).
  destruct (String.eqb_spec col k) as [->|]; auto. now rewrite Hl.
Qed.

Lemma mapped_once_compose (f : LabelEncoder -> value -> result value)
      (col : string) (rest : list string) (a b c : string * value) :
  existsb (String.eqb col) rest = false ->
  Notions.mapped_once label_encoders f [col] a b ->
  Notions.mapped_once label_encoders f rest b c ->
  Notions.mapped_once label_encoders f (col :: rest) a c.
Proof.
  destruct a as [k v], b as [k1 v1], c as [k2 v2].
  unfold Notions.mapped_once. simpl. intros Hnot [E1 C1] [E2 C2].
  subst k1 k2. split; auto. rewrite orb_false_r in C1.
  destruct (String.eqb_spec k col) as [->|Hne]; simpl.
  - rewrite Hnot in C2. subst v2. exact C1.
  - subst v1. exact C2.
Qed.

Lemma NoDup_cons_existsb (col : string) (rest : list string) :
  NoDup (col :: rest) -> existsb (String.eqb col) rest = false /\ NoDup rest.
Proof.
  intros H. inversion H as [|? ? Hnot Hnd]; subst. split; auto.
  destruct (existsb (String.eqb col) rest) eqn:E; auto.
  apply existsb_eqb_In in E. contradiction.
Qed.

Lemma encode_loop_once (cols : list string) (df df' : frame) :
  NoDup cols ->
  encode_loop cols df = Ok df' ->
  Forall2 (Notions.mapped_once label_encoders Autofill.encode_cell cols)
          df df'.
Proof.
  revert df. induction cols as [|col cols IH]; intros df Hnd H.
  - simpl in H. inversion H; subst. apply Forall2_same. intros [k v].
    unfold Notions.mapped_once. simpl. auto.
  - destruct (NoDup_cons_existsb col cols Hnd) as [Hnot Hnd'].
    simpl in H.
    destruct (if mem col df
              then match lookup col label_encoders with
                   | Some le => map_column (Autofill.encode_cell le) col df
                   | None => Ok df
                   end
              else Ok df) as [df1|] eqn:E1; simpl in H; [|discriminate].
    assert (H1 : Forall2 (Notions.mapped_once label_encoders
                            Autofill.encode_cell [col]) df df1).
    { destruct (mem col df) eqn:Hm.
      - destruct (lookup col label_encoders) as [le|] eqn:Hl.
        + eapply mapped_once_step; eauto.
        + inversion E1; subst. apply mapped_once_untouched. auto.
      - inversion E1; subst. apply mapped_once_untouched. auto. }
    eapply Forall2_compose; [|exact H1|exact (IH df1 Hnd' H)].
    intros a b c. now apply mapped_once_compose.
Qed.

Lemma decode_loop_once (cols : list string) (df df' : frame) :
  NoDup cols ->
  decode_loop cols df = Ok df' ->
  Forall2 (Notions.mapped_once label_encoders Autofill.decode_cell cols)
          df df'.
Proof.
  revert df. induction cols as [|col cols IH]; intros df Hnd H.
  - simpl in H. inversion H; subst. apply Forall2_same. intros [k v].
    unfold Notions.mapped_once. simpl. auto.
  - destruct (NoDup_cons_existsb col cols Hnd) as [Hnot Hnd'].
    simpl in H.
    destruct (match lookup col label_encoders with
              | Some le =>
                  if mem col df
                  then map_column (Autofill.decode_cell le) col df
                  else Err (KeyError col)
              | None => Ok df
              end) as [df1|] eqn:E1; simpl in H; [|discriminate].
    assert (H1 : Forall2 (Notions.mapped_once label_encoders
                            Autofill.decode_cell [col]) df df1).
    { destruct (lookup col label_encoders) as [le|] eqn:Hl.
      - destruct (mem col df) eqn:Hm; [|discriminate].
        eapply mapped_once_step; eauto.
      - inversion E1; subst. apply mapped_once_untouched. auto. }
    eapply Forall2_compose; [|exact H1|exact (IH df1 Hnd' H)].
    intros a b c. now apply mapped_once_compose.
Qed.

Lemma decode_cell_string (le : LabelEncoder) (v v' : value) :
  Autofill.decode_cell le v = Ok v' ->
  exists s, v' = VStr s /\ (In s (classes_ le) \/ s = Unknown).
Proof.
  unfold Autofill.decode_cell.
  destruct (round_astype_int v) as [x|]; simpl; [|discriminate].
  destruct (Autofill.decode le x) as [s|] eqn:E; simpl; [|discriminate].
  intros H. inversion H; subst. exists s. split; auto.
  eapply CodecMore.decode_label_or_unknown; eauto.
Qed.

Lemma step5_cell_compose (col : string) (rest : list string)
      (a b c : string * value) :
  step5_cell [col] a b -> step5_cell rest b c -> step5_cell (col :: rest) a c.
Proof.
  destruct a as [k v], b as [k1 v1], c as [k2 v2].
  unfold Notions.step5_cell. simpl. intros [E1 C1] [E2 C2].
  subst k1 k2. split; auto. rewrite orb_false_r in C1.
  destruct (String.eqb k col); simpl.
  - destruct (lookup k label_encoders) as [le|].
    + destruct (existsb (String.eqb k) rest); [exact C2|].
      subst v2. exact C1.
    + subst v1. now destruct (existsb (String.eqb k) rest).
  - subst v1. exact C2.
Qed.

Lemma decode_loop_cells (cols : list string) (df df' : frame) :
  decode_loop cols df = Ok df' -> Forall2 (step5_cell cols) df df'.
Proof.
  revert df. induction cols as [|col cols IH]; intros df H.
  - simpl in H. inversion H; subst. apply Forall2_same. intros [k v].
    unfold Notions.step5_cell. simpl. auto.
  - simpl in H.
    destruct (match lookup col label_encoders with
              | Some le =>
                  if mem col df
                  then map_column (Autofill.decode_cell le) col df
                  else Err (KeyError col)
              | None => Ok df
              end) as [df1|] eqn:E1; simpl in H; [|discriminate].
    assert (H1 : Forall2 (step5_cell [col]) df df1).
    { assert (Hm : Forall2 (Notions.mapped_once label_encoders
                              Autofill.decode_cell [col]) df df1).
      { destruct (lookup col label_encoders) as [le|] eqn:Hl.
        - destruct (mem col df) eqn:Hm; [|discriminate].
          eapply mapped_once_step; eauto.
        - inversion E1; subst. apply mapped_once_untouched. auto. }
      eapply Forall2_impl; [|exact Hm]. intros [k v] [k1 v1] [E C].
      unfold Notions.step5_cell. simpl in *. split; auto.
      destruct (if (String.eqb k col || false)%bool
                then lookup k label_encoders else None) as [le|]; auto.
      eapply decode_cell_string; eauto. }
    eapply Forall2_compose; [|exact H1|exact (IH df1 H)].
    intros a b c. apply step5_cell_compose.
Qed.

(** *** What a returned call went through *)

Lemma autofill_returned (input_dict out : dict value) :
  autofill_missing_values input_dict = Ok out ->
  exists imp df_user row df_imputed df_decoded,
    imputer = Some imp
    /\ encoded_frame input_dict = Ok df_user
    /\ imp df_user = Ok row
    /\ frame_of_row row (map fst df_user) = Ok df_imputed
    /\ decode_loop categorical_cols df_imputed = Ok df_decoded
    /\ out = to_dict df_decoded.
Proof.
  unfold Autofill.autofill_missing_values, Autofill.autofill_body.
  destruct (encoded_frame input_dict) as [df_user|]; simpl; [|discriminate].
  unfold Autofill.impute. destruct imputer as [imp|]; simpl; [|discriminate].
  destruct (imp df_user) as [row|] eqn:Hi; simpl; [|discriminate].
  destruct (frame_of_row row (map fst df_user)) as [df_imputed|] eqn:Hf;
    simpl; [|discriminate].
  destruct (decode_loop categorical_cols df_imputed) as [df_decoded|] eqn:Hd;
    simpl; [|discriminate].
  intros H. inversion H; subst.
  exists imp, df_user, row, df_imputed, df_decoded. repeat split; auto.
Qed.

Lemma keys_encoded_frame (input_dict : dict value) (df_user : frame) :
  encoded_frame input_dict = Ok df_user ->
  keys df_user = keys (align input_dict).
Proof.
  intros H.
  destruct (AutofillSpec.encoded_frame_total label_encoders df_training
              input_dict) as (df & E & Hc).
  rewrite H in E. inversion E; subst.
  eapply Forall2_keys; [|exact Hc]. intros a b [Hab _]. exact Hab.
Qed.

(** X11. A returned record has exactly the columns of the aligned input,
    in their order (the training columns when a training frame is
    loaded), provided no column name occurs twice. *)
Theorem autofill_result_has_the_aligned_columns
        (input_dict out : dict value) :
  autofill_missing_values input_dict = Ok out ->
  NoDup (keys (align input_dict)) ->
  keys out = keys (align input_dict)
  /\ (empty df_training = false ->
      keys out = map fst (columns df_training)).
Proof.
  intros H Hnd.
  destruct (autofill_returned input_dict out H)
    as (imp & df_user & row & df_imputed & df_decoded
        & _ & He & _ & Hf & Hd & ->).
  assert (Hk : keys df_decoded = keys (align input_dict)).
  { rewrite <- (keys_encoded_frame input_dict df_user He).
    destruct (frame_of_row_cells _ _ _ Hf) as (Hk & _).
    change (map fst df_user) with (keys df_user) in Hk. rewrite <- Hk.
    eapply Forall2_keys; [|apply decode_loop_cells; exact Hd].
    intros a b [Hab _]. exact Hab. }
  rewrite to_dict_NoDup by (rewrite Hk; exact Hnd).
  split; [exact Hk|]. intros Hne. rewrite Hk.
  unfold Autofill.align. rewrite Hne. simpl. apply keys_reindex.
Qed.

(** X12. In a returned record every field that has a loaded encoder
    holds a string, never a code or a null: a label of the field's
    vocabulary, or "Unknown". *)
Theorem autofill_result_categorical_fields_are_labels
        (input_dict out : dict value) (k : string) (le : LabelEncoder)
        (v : value) :
  autofill_missing_values input_dict = Ok out ->
  lookup k label_encoders = Some le ->
  lookup k out = Some v ->
  exists s, v = VStr s /\ (In s (classes_ le) \/ s = Unknown).
Proof.
  intros H Hle Hl.
  destruct (autofill_returned input_dict out H)
    as (imp & df_user & row & df_imputed & df_decoded
        & _ & _ & _ & _ & Hd & ->).
  apply lookup_to_dict_In in Hl.
  destruct (Forall2_In_r _ _ _ _ (decode_loop_cells _ _ _ Hd) Hl)
    as ([k' x] & _ & [E C]).
  simpl in E, C. subst k'.
  rewrite (AutofillSpec.encoder_col_is_categorical
             label_encoders df_training k le Hle), Hle in C.
  exact C.
Qed.

(** X14. When the imputer raises, autofill raises RuntimeError with the
    imputer's message after its own prefix; when the imputer returns a
    row whose width is not the number of columns it was given, autofill
    raises as well. In neither case is a record returned. *)
Theorem imputer_failure_is_surfaced
        (imp : frame -> result (list Q)) (input_dict : dict value)
        (df_user : frame) :
  imputer = Some imp ->
  encoded_frame input_dict = Ok df_user ->
  (forall e,
      imp df_user = Err e ->
      autofill_missing_values input_dict
      = Err (RuntimeError ("Error during model-based autofill: " ++ str e)))
  /\ (forall row,
        imp df_user = Ok row ->
        List.length row <> List.length df_user ->
        exists msg,
          autofill_missing_values input_dict
          = Err (RuntimeError
                   ("Error during model-based autofill: " ++ msg))).
Proof.
  intros Hi He.
  unfold Autofill.autofill_missing_values, Autofill.autofill_body.
  rewrite He. simpl. unfold Autofill.impute. rewrite Hi. split.
  - intros e Hr. now rewrite Hr.
  - intros row Hr Hlen. rewrite Hr. simpl. unfold frame_of_row.
    rewrite length_map.
    destruct (Nat.eqb_spec (List.length row) (List.length df_user));
      [contradiction|].
    simpl. eexists. reflexivity.
Qed.

(** *** Observed values through the whole function *)

Lemma round_trip_cell (le : LabelEncoder) (label : string) :
  In label (classes_ le) ->
  exists c,
    Autofill.encode_cell le (VStr label) = Ok (VNum (inject_Z c))
    /\ Autofill.decode_cell le (VNum (inject_Z c)) = Ok (VStr label).
Proof.
  intros Hin.
  destruct (CodecSpec.transform_in_vocabulary le label Hin)
    as (i & Hi & Hlt & Hn).
  exists (Z.of_nat i). split.
  - assert (He : Autofill.encode le (VStr label) = Ok (Z.of_nat i)).
    { unfold Autofill.encode. simpl.
      replace (existsb (String.eqb label) (classes_ le)) with true
        by (symmetry; now apply existsb_eqb_In).
      exact Hi. }
    unfold Autofill.encode_cell. now rewrite He.
  - unfold Autofill.decode_cell. simpl.
    rewrite np_round_inject_Z, CodecSpec.decode_in_range by lia.
    simpl. now rewrite Nat2Z.id, Hn.
Qed.

Lemma imputed_frame_cells (P : string * value -> Q -> Prop)
      (df : frame) (row : list Q) :
  Forall2 P df row ->
  Forall2 (fun a b => fst b = fst a /\ exists q, snd b = VNum q /\ P a q)
          df (combine (map fst df) (map VNum row)).
Proof.
  induction 1 as [|a q df row Hp _ IH]; simpl; constructor; auto.
  simpl. split; auto. exists q. auto.
Qed.

Lemma observed_cells_survive (imp : frame -> result (list Q))
      (input_dict : dict value) (df_user : frame) (row : list Q)
      (df_imputed df_decoded : frame) :
  Notions.keeps_observed imp ->
  NoDup categorical_cols ->
  encoded_frame input_dict = Ok df_user ->
  imp df_user = Ok row ->
  frame_of_row row (map fst df_user) = Ok df_imputed ->
  decode_loop categorical_cols df_imputed = Ok df_decoded ->
  Forall2 survives (align input_dict) df_decoded.
Proof.
  intros Hkeep Hnd He Hi Hf Hd.
  pose proof (encode_loop_once categorical_cols _ _ Hnd He) as R1.
  destruct (frame_of_row_cells _ _ _ Hf) as (_ & _ & ->).
  pose proof (imputed_frame_cells _ _ _ (Hkeep _ _ Hi)) as R2.
  pose proof (decode_loop_once categorical_cols _ _ Hnd Hd) as R3.
  assert (R23 : Forall2
                  (fun b d =>
                     exists c,
                       (fst c = fst b
                        /\ exists q, snd c = VNum q
                                     /\ forall x, snd b = VNum x -> q = x)
                       /\ Notions.mapped_once label_encoders
                            Autofill.decode_cell categorical_cols c d)
                  df_user df_decoded).
  { eapply Forall2_compose; [|exact R2|exact R3].
    intros b c d Hbc Hcd. exists c. split; [exact Hbc|exact Hcd]. }
  eapply Forall2_compose; [|exact R1|exact R23].
  intros [k v] [k1 v1] [k3 v3] [E1 C1]
         ([k2 v2] & [E2 (q & Hq & Hobs)] & [E3 C3]).
  simpl in *. subst k1 k2 k3 v2. unfold Notions.survives. simpl.
  split; auto. split.
  - intros le label Hl -> Hin.
    rewrite (AutofillSpec.encoder_col_is_categorical
               label_encoders df_training k le Hl), Hl in C1, C3.
    destruct (round_trip_cell le label Hin) as (c & Henc & Hdec).
    rewrite Henc in C1. inversion C1; subst v1.
    rewrite (Hobs _ eq_refl), Hdec in C3. now inversion C3.
  - intros x Hl ->. rewrite Hl in C1, C3.
    assert (v1 = VNum x)
      by now destruct (existsb (String.eqb k) categorical_cols).
    subst v1. rewrite (Hobs _ eq_refl) in C3.
    now destruct (existsb (String.eqb k) categorical_cols).
Qed.

(** X13. With an imputer that keeps the observed entries, and no column
    or categorical name occurring twice, a returned record repeats what
    was known: a field with an encoder whose input value was a label of
    the vocabulary holds that label, and a field without an encoder whose
    input value was a number holds that number. *)
Theorem autofill_keeps_known_values
        (input_dict out : dict value) (k : string) :
  (forall imp, imputer = Some imp -> Notions.keeps_observed imp) ->
  NoDup categorical_cols ->
  NoDup (keys (align input_dict)) ->
  autofill_missing_values input_dict = Ok out ->
  (forall le label,
      lookup k label_encoders = Some le ->
      lookup k (align input_dict) = Some (VStr label) ->
      In label (classes_ le) ->
      lookup k out = Some (VStr label))
  /\ (forall x,
        lookup k label_encoders = None ->
        lookup k (align input_dict) = Some (VNum x) ->
        lookup k out = Some (VNum x)).
Proof.
  intros Hkeep Hnd Hkeys H.
  destruct (autofill_returned input_dict out H)
    as (imp & df_user & row & df_imputed & df_decoded
        & Himp & He & Hi & Hf & Hd & ->).
  pose proof (observed_cells_survive imp input_dict df_user row df_imputed
                df_decoded (Hkeep imp Himp) Hnd He Hi Hf Hd) as Hs.
  assert (Hk : keys df_decoded = keys (align input_dict)).
  { eapply Forall2_keys; [|exact Hs]. intros a b [Hab _]. exact Hab. }
  rewrite to_dict_NoDup by (rewrite Hk; exact Hkeys).
  split.
  - intros le label Hl Hin Hvoc.
    destruct (Forall2_lookup survives _ _ k _ ltac:(intros a b [Hab _]; exact Hab)
                Hs Hin) as (v' & Hv' & _ & Hcat & _).
    simpl in Hcat. now rewrite Hv', (Hcat le label Hl eq_refl Hvoc).
  - intros x Hl Hin.
    destruct (Forall2_lookup survives _ _ k _ ltac:(intros a b [Hab _]; exact Hab)
                Hs Hin) as (v' & Hv' & _ & _ & Hnum).
    simpl in Hnum. now rewrite Hv', (Hnum x Hl eq_refl).
Qed.

End Globals.

(** *** Runs on the sample artifacts *)

Lemma sample_imputer_keeps_observed : Notions.keeps_observed Sample.imputer.
Proof.
  intros df row H. unfold Sample.imputer in H. inversion H; subst. clear H.
  induction df as [|[k v] df IH]; simpl; constructor; auto.
  simpl. intros x E. now rewrite E.
Qed.

Ltac nodup_strings :=
  repeat (constructor; [simpl; intuition discriminate|]); constructor.

Lemma autofill_result_has_the_aligned_columns_witness :
  Autofill.autofill_missing_values (Some Sample.imputer)
    Sample.label_encoders Sample.df_training Sample.record_unseen
  = Ok Sample.record_no_kpi
  /\ keys Sample.record_no_kpi
     = ["Technology"; "Transport Mode"; "Transport Distance (km)"].
Proof.
  assert (H : Autofill.autofill_missing_values (Some Sample.imputer)
                Sample.label_encoders Sample.df_training Sample.record_unseen
              = Ok Sample.record_no_kpi) by reflexivity.
  split; [exact H|].
  refine (proj2 (autofill_result_has_the_aligned_columns
                   (Some Sample.imputer) Sample.label_encoders
                   Sample.df_training Sample.record_unseen
                   Sample.record_no_kpi H _) eq_refl).
  simpl. nodup_strings.
Defined.

Lemma autofill_result_categorical_fields_are_labels_witness :
  exists s, VStr "Truck" = VStr s
            /\ (In s (classes_ Sample.transport_le) \/ s = Unknown).
Proof.
  exact (autofill_result_categorical_fields_are_labels
           (Some Sample.imputer) Sample.label_encoders Sample.df_training
           Sample.record_unseen Sample.record_no_kpi
           "Transport Mode" Sample.transport_le (VStr "Truck")
           eq_refl eq_refl eq_refl).
Defined.

Lemma autofill_keeps_known_values_witness :
  lookup "Transport Mode" Sample.record_no_kpi = Some (VStr "Truck")
  /\ lookup "Transport Distance (km)" Sample.record_no_kpi
     = Some (VNum (300 # 1)).
Proof.
  assert (Hk : forall imp, Some Sample.imputer = Some imp ->
                           Notions.keeps_observed imp).
  { intros imp E. inversion E; subst. exact sample_imputer_keeps_observed. }
  assert (Hc : NoDup (Autofill.categorical_cols Sample.label_encoders
                        Sample.df_training)) by (simpl; nodup_strings).
  assert (Ha : NoDup (keys (Autofill.align Sample.df_training
                              Sample.record_no_kpi)))
    by (simpl; nodup_strings).
  split.
  - refine (proj1 (autofill_keeps_known_values
                     (Some Sample.imputer) Sample.label_encoders
                     Sample.df_training Sample.record_no_kpi
                     Sample.record_no_kpi "Transport Mode" Hk Hc Ha eq_refl)
                  Sample.transport_le "Truck" eq_refl eq_refl _).
    simpl. auto.
  - exact (proj2 (autofill_keeps_known_values
                    (Some Sample.imputer) Sample.label_encoders
                    Sample.df_training Sample.record_no_kpi
                    Sample.record_no_kpi "Transport Distance (km)"
                    Hk Hc Ha eq_refl)
                 (300 # 1) eq_refl eq_refl).
Defined.

Lemma imputer_failure_is_surfaced_witness :
  Autofill.autofill_missing_values (Some Sample.imputer_raising)
    Sample.label_encoders Sample.df_training Sample.record_unseen
  = Err (RuntimeError
           ("Error during model-based autofill: " ++
            "X has 3 features, but IterativeImputer is expecting 44 features as input."))
  /\ exists msg,
       Autofill.autofill_missing_values (Some Sample.imputer_short)
         Sample.label_encoders Sample.df_training Sample.record_unseen
       = Err (RuntimeError ("Error during model-based autofill: " ++ msg)).
Proof.
  split.
  - exact (proj1 (imputer_failure_is_surfaced
                    (Some Sample.imputer_raising) Sample.label_encoders
                    Sample.df_training Sample.imputer_raising
                    Sample.record_unseen
                    [ ("Technology", VNum (inject_Z 1));
                      ("Transport Mode", VNum (inject_Z (-1)));
                      ("Transport Distance (km)", VNum (300 # 1)) ]
                    eq_refl eq_refl)
                 _ eq_refl).
  - refine (proj2 (imputer_failure_is_surfaced
                     (Some Sample.imputer_short) Sample.label_encoders
                     Sample.df_training Sample.imputer_short
                     Sample.record_unseen
                     [ ("Technology", VNum (inject_Z 1));
                       ("Transport Mode", VNum (inject_Z (-1)));
                       ("Transport Distance (km)", VNum (300 # 1)) ]
                     eq_refl eq_refl)
                  [1 # 1; 2 # 1] eq_refl _).
    simpl. discriminate.
Defined.

(** *** Edge cases of the two loops *)

Section Edges.

Variable imputer : option (frame -> result (list Q)).
Variable label_encoders : dict LabelEncoder.
Variable df_training : DataFrame.

Local Abbreviation categorical_cols :=
  (Autofill.categorical_cols label_encoders df_training).
Local Abbreviation decode_loop := (Autofill.decode_loop label_encoders).
Local Abbreviation align := (Autofill.align df_training).
Local Abbreviation autofill_missing_values :=
  (Autofill.autofill_missing_values imputer label_encoders df_training).

Lemma decode_loop_needs_columns (cols : list string) (df df' : frame) :
  decode_loop cols df = Ok df' ->
  forall col le,
    In col cols -> lookup col label_encoders = Some le ->
    In col (keys df).
Proof.
  revert df. induction cols as [|c cols IH]; intros df H col le Hin Hl.
  - destruct Hin.
  - simpl in H.
    destruct (match lookup c label_encoders with
              | Some le0 =>
                  if mem c df
                  then map_column (Autofill.decode_cell le0) c df
                  else Err (KeyError c)
              | None => Ok df
              end) as [df1|] eqn:E1; simpl in H; [|discriminate].
    assert (Hk : keys df1 = keys df).
    { eapply Forall2_keys;
        [|apply (decode_loop_cells label_encoders [c] df df1)].
      - intros a b [Hab _]. exact Hab.
      - simpl. now rewrite E1. }
    destruct Hin as [->|Hin].
    + rewrite Hl in E1. destruct (mem col df) eqn:Hm; [|discriminate].
      now apply mem_In.
    + rewrite <- Hk. eapply IH; eauto.
Qed.

(** X19. autofill can return only if every field that has an encoder is
    a column of the aligned input. Step 3 skips an encoder whose column
    is absent, but step 5 indexes the imputed frame by it and raises
    KeyError; so with no training frame loaded, an input that lacks one
    categorical field makes autofill fail. *)
Theorem autofill_needs_every_encoded_field
        (input_dict out : dict value) (col : string) (le : LabelEncoder) :
  autofill_missing_values input_dict = Ok out ->
  lookup col label_encoders = Some le ->
  In col (keys (align input_dict)).
Proof.
  intros H Hl.
  destruct (autofill_returned imputer label_encoders df_training
              input_dict out H)
    as (imp & df_user & row & df_imputed & df_decoded
        & _ & He & _ & Hf & Hd & _).
  rewrite <- (keys_encoded_frame label_encoders df_training
                input_dict df_user He).
  destruct (frame_of_row_cells _ _ _ Hf) as (Hk & _).
  change (map fst df_user) with (keys df_user) in Hk. rewrite <- Hk.
  eapply decode_loop_needs_columns; eauto.
  apply existsb_eqb_In.
  eapply AutofillSpec.encoder_col_is_categorical; eauto.
Qed.

Lemma loops_without_encoders (cols : list string) (df : frame) :
  label_encoders = [] ->
  Autofill.encode_loop label_encoders cols df = Ok df
  /\ decode_loop cols df = Ok df.
Proof.
  intros ->. induction cols as [|c cols [IH1 IH2]]; simpl; auto.
  destruct (mem c df); simpl; auto.
Qed.

(** X18. With no encoder artifact loaded, steps 3 and 5 change nothing,
    whatever object columns the training frame has: the imputer is given
    the aligned record with its labels still strings, and a returned
    record is the imputer's row under the aligned column names. *)
Theorem autofill_without_encoders
        (imp : frame -> result (list Q)) (input_dict : dict value) :
  label_encoders = [] ->
  imputer = Some imp ->
  Autofill.encoded_frame label_encoders df_training input_dict
  = Ok (align input_dict)
  /\ autofill_missing_values input_dict =
     match (let? row := imp (align input_dict) in
            frame_of_row row (map fst (align input_dict))) with
     | Ok df_imputed => Ok (to_dict df_imputed)
     | Err e =>
         Err (RuntimeError ("Error during model-based autofill: " ++ str e))
     end.
Proof.
  intros Hl Hi.
  assert (He : Autofill.encoded_frame label_encoders df_training input_dict
               = Ok (align input_dict)).
  { unfold Autofill.encoded_frame.
    apply (loops_without_encoders categorical_cols (align input_dict) Hl). }
  split; [exact He|].
  unfold Autofill.autofill_missing_values, Autofill.autofill_body.
  rewrite He. cbn [rbind]. unfold Autofill.impute. rewrite Hi.
  destruct (imp (align input_dict)) as [row|e]; cbn [rbind]; auto.
  destruct (frame_of_row row (map fst (align input_dict))) as [df|e];
    cbn [rbind]; auto.
  destruct (loops_without_encoders categorical_cols df Hl) as [_ ->].
  reflexivity.
Qed.

End Edges.

Lemma autofill_needs_every_encoded_field_witness :
  In "Transport Mode"
     (keys (Autofill.align Sample.df_training Sample.record_unseen)).
Proof.
  exact (autofill_needs_every_encoded_field
           (Some Sample.imputer) Sample.label_encoders Sample.df_training
           Sample.record_unseen Sample.record_no_kpi
           "Transport Mode" Sample.transport_le eq_refl eq_refl).
Defined.

Lemma autofill_without_encoders_witness :
  Autofill.autofill_missing_values (Some Sample.imputer) []
    Sample.df_training Sample.record_unseen
  = Ok [ ("Technology", VNum (120 # 1));
         ("Transport Mode", VNum (120 # 1));
         ("Transport Distance (km)", VNum (300 # 1)) ].
Proof.
  exact (proj2 (autofill_without_encoders
                  (Some Sample.imputer) [] Sample.df_training
                  Sample.imputer Sample.record_unseen eq_refl eq_refl)).
Defined.

End AutofillMore.

(** ** app.py: the report endpoint *)

Module EndpointsMore.

(** *** Paths of the generated reports *)

Lemma string_app_assoc (a b c : string) :
  ((a ++ b) ++ c)%string = (a ++ (b ++ c))%string.
Proof. induction a as [|x a IH]; simpl; congruence. Qed.

Lemma contains_slash_app (a b : string) :
  contains_slash (a ++ b) = (contains_slash a || contains_slash b)%bool.
Proof.
  induction a as [|x a IH]; simpl; auto. rewrite IH. now rewrite orb_assoc.
Qed.

Lemma ends_with_slash_contains (a : string) :
  ends_with_slash a = true -> contains_slash a = true.
Proof.
  induction a as [|x a IH]; simpl; [discriminate|].
  destruct a as [|y a].
  - intros ->. reflexivity.
  - intros H. rewrite (IH H). apply orb_true_r.
Qed.

Lemma basename_without_slash (f : string) :
  contains_slash f = false -> os_path_basename f = f.
Proof.
  destruct f as [|c f]; auto. intros H.
  change (os_path_basename (String c f))
    with (if contains_slash (String c f)
          then os_path_basename f else String c f).
  now rewrite H.
Qed.

Lemma basename_after_directory (a f : string) :
  a = EmptyString \/ ends_with_slash a = true ->
  contains_slash f = false ->
  os_path_basename (a ++ f) = f.
Proof.
  intros Ha Hf. induction a as [|c a IH].
  - now apply basename_without_slash.
  - destruct Ha as [Ha|Ha]; [discriminate|].
    change (os_path_basename (String c a ++ f))
      with (if contains_slash (String c a ++ f)
            then os_path_basename (a ++ f) else (String c a ++ f)%string).
    rewrite contains_slash_app, (ends_with_slash_contains _ Ha). simpl.
    apply IH. destruct a as [|y a]; [now left|right]. exact Ha.
Qed.

Lemma starts_with_slash_contains (f : string) :
  contains_slash f = false -> starts_with_slash f = false.
Proof.
  destruct f as [|c f]; simpl; auto. intros H.
  now apply orb_false_elim in H.
Qed.

Lemma basename_join (a f : string) :
  contains_slash f = false -> os_path_basename (os_path_join a f) = f.
Proof.
  intros Hf. unfold os_path_join.
  rewrite (starts_with_slash_contains f Hf).
  destruct (String.eqb_spec a "") as [->|Hne]; simpl.
  - now apply basename_without_slash.
  - destruct (ends_with_slash a) eqn:Ha.
    + apply basename_after_directory; auto.
    + change (String "/" f) with ("/" ++ f)%string.
      rewrite <- string_app_assoc. apply basename_after_directory; auto.
      right. clear. induction a as [|c a IH]; auto.
      simpl. destruct (a ++ "/")%string eqn:E; [destruct a; discriminate|].
      exact IH.
Qed.

Section Globals.

Variable imputer : option (frame -> result (list Q)).
Variable label_encoders : dict LabelEncoder.
Variable df_training : DataFrame.
Variable BASE_DIR : string.
Variable fs0 : FS.
Variable APP_BASE_DIR : string.
Variable generate_report_from_dict : dict value -> string -> result string.

Local Abbreviation export_report :=
  (Endpoints.export_report imputer label_encoders df_training BASE_DIR fs0
     APP_BASE_DIR generate_report_from_dict).
Local Abbreviation REPORTS_DIR := (Endpoints.REPORTS_DIR APP_BASE_DIR).

(** X17. When autofill, make_prediction and the report generator all
    return, the endpoint answers with the PDF at
    REPORTS_DIR/report_<hex>.pdf, and the download name is
    report_<hex>.pdf, whatever the application directory is. The report
    generator gets make_prediction's result. When the generator raises,
    the answer is a 500 carrying its message. *)
Theorem export_report_serves_the_generated_file
        (input_dict autofilled_dict prediction_dict : dict value)
        (hex : string) (fs : FS) (t : list io_event) :
  contains_slash hex = false ->
  Autofill.autofill_missing_values imputer label_encoders df_training
    input_dict = Ok autofilled_dict ->
  Predict.make_prediction BASE_DIR fs0 autofilled_dict fs
  = (t, Ok prediction_dict) ->
  export_report input_dict hex fs =
  match generate_report_from_dict prediction_dict
          (os_path_join REPORTS_DIR ("report_" ++ hex ++ ".pdf")) with
  | Ok _ =>
      Endpoints.FileResponse
        (os_path_join REPORTS_DIR ("report_" ++ hex ++ ".pdf"))
        "application/pdf" ("report_" ++ hex ++ ".pdf")
  | Err e =>
      Endpoints.HTTPException 500 ("Error generating report: " ++ str e)
  end.
Proof.
  intros Hhex Ha Hp.
  unfold Endpoints.export_report, Endpoints.export_report_body.
  rewrite Ha. cbn [rbind]. rewrite Hp. cbn [rbind snd]. cbv zeta.
  rewrite basename_join.
  - now destruct (generate_report_from_dict prediction_dict
                    (os_path_join REPORTS_DIR ("report_" ++ hex ++ ".pdf"))).
  - simpl. rewrite contains_slash_app, Hhex. reflexivity.
Qed.

Lemma autofill_raises_without_imputer (input_dict : dict value) :
  imputer = None ->
  Autofill.autofill_missing_values imputer label_encoders df_training
    input_dict
  = Err (RuntimeError
           "Error during model-based autofill: ❌ No imputer found. Please train and save 'xgb_imputer.pkl'.").
Proof.
  intros ->. unfold Autofill.autofill_missing_values, Autofill.autofill_body.
  destruct (AutofillSpec.encoded_frame_total label_encoders df_training
              input_dict) as (df_user & -> & _).
  reflexivity.
Qed.

(** X16. A failure of either stage reaches the client as a 500 whose
    detail nests the messages: with no imputer loaded every request gets
    the no-imputer message of autofill; with an autofill that returns but
    no KPI model loaded, every request gets the no-models message of
    make_prediction. In both cases the report generator's behaviour is
    irrelevant. *)
Theorem export_report_reports_stage_failures
        (input_dict : dict value) (hex : string) (fs : FS) :
  (imputer = None ->
   export_report input_dict hex fs
   = Endpoints.HTTPException 500
       "Error generating report: Error during model-based autofill: ❌ No imputer found. Please train and save 'xgb_imputer.pkl'.")
  /\ (forall autofilled_dict,
        Predict.MODELS BASE_DIR fs0 = [] ->
        Autofill.autofill_missing_values imputer label_encoders df_training
          input_dict = Ok autofilled_dict ->
        export_report input_dict hex fs
        = Endpoints.HTTPException 500
            "Error generating report: Error during prediction: No prediction models found in 'model/' directory.").
Proof.
  unfold Endpoints.export_report, Endpoints.export_report_body. split.
  - intros Hi. now rewrite (autofill_raises_without_imputer input_dict Hi).
  - intros d Hm Ha. rewrite Ha. cbn [rbind].
    now rewrite (PredictSpec.no_models_always_spec BASE_DIR fs0 d fs Hm).
Qed.

End Globals.

Lemma export_report_serves_the_generated_file_witness :
  Endpoints.export_report (Some Sample.imputer) Sample.label_encoders
    Sample.df_training Sample.BASE_DIR Sample.fs_broken_recovery
    "/app/Backend" (fun _ path => Ok path)
    Sample.record_unseen "9f1c2d3e4b5a69788796a5b4c3d2e1f0"
    Sample.fs_broken_recovery
  = Endpoints.FileResponse
      "/app/Backend/generatedpdf/report_9f1c2d3e4b5a69788796a5b4c3d2e1f0.pdf"
      "application/pdf" "report_9f1c2d3e4b5a69788796a5b4c3d2e1f0.pdf".
Proof.
  exact (export_report_serves_the_generated_file
           (Some Sample.imputer) Sample.label_encoders Sample.df_training
           Sample.BASE_DIR Sample.fs_broken_recovery "/app/Backend"
           (fun _ path => Ok path)
           Sample.record_unseen Sample.record_no_kpi
           (match snd (Predict.make_prediction Sample.BASE_DIR
                         Sample.fs_broken_recovery Sample.record_no_kpi
                         Sample.fs_broken_recovery) with
            | Ok out => out
            | Err _ => []
            end)
           "9f1c2d3e4b5a69788796a5b4c3d2e1f0" Sample.fs_broken_recovery
           (fst (Predict.make_prediction Sample.BASE_DIR
                   Sample.fs_broken_recovery Sample.record_no_kpi
                   Sample.fs_broken_recovery))
           eq_refl eq_refl eq_refl).
Defined.

End EndpointsMore.
